(** * VM Nebula: the routing and dispatch engine of [app.py]

    A shallow embedding of the query classifier ([detect_agent]), the model
    selection policy ([choose_model]), the two provider adapters
    ([call_gemini_flash], [call_zai_direct]), the dispatcher with its
    fallback chain ([call_llm]), the two endpoints ([chat_endpoint],
    [generate_stream]) and the session store ([save_session] of
    [database.py]).

    Conventions of the embedding.
    - A Python [str] is a [string]; the characters are read as ASCII text:
      [lower] folds [A]..[Z] only and [isspace] is Python's whitespace test
      restricted to code points below 128.
    - A Python [float] is a rational of [Q]; only the literals [0.0], [0.9],
      [0.85] and differences of clock readings occur.  A Python [int] is an
      integer of [Z], or a [nat] where it is a length or an index.
    - Effects (remote calls, the clock, [print], the [sessions] table, the
      events a generator yields) live in an explicit [World]; an [Exception]
      is a value of the monad, caught by [try_except] as Python's
      [try/except Exception] does.  [BaseException]s that are not
      [Exception]s (task cancellation, interpreter exit) are outside the
      model, as is the pacing [asyncio.sleep] between streamed chunks.

    Beyond the engine, the file embeds the status endpoints
    ([get_models_status], [health_check]) and the read side of the store
    ([count_sessions], [clear_all_sessions], [get_model_stats],
    [get_agent_stats], [get_session_history], [get_recent_sessions]).  The
    columns the engine fills in ([id], [timestamp]) and its [ORDER BY] are
    parameters there.  Left out are [setup_database], which works on the
    file system, the clients [demo.py] and [test_streaming.py], and the
    endpoint [/sessions/cleanup], which calls a method
    [cleanup_old_sessions] that [DatabaseManager] does not define. *)

From Stdlib Require Import Bool Arith List Lia ZArith QArith.
From Stdlib Require Import Ascii String.
From Stdlib Require Import Permutation Sorted.
Import ListNotations.

Open Scope string_scope.
Open Scope list_scope.
Open Scope nat_scope.

(* ================================================================== *)
(** * Python string operations *)
(* ================================================================== *)

Module PyStr.

(** [c.isupper()] for an ASCII character. *)
Definition is_upper (c : ascii) : bool :=
  (65 <=? nat_of_ascii c) && (nat_of_ascii c <=? 90).

Definition lower_char (c : ascii) : ascii :=
  if is_upper c then ascii_of_nat (nat_of_ascii c + 32) else c.

(** [s.lower()] *)
Fixpoint lower (s : string) : string :=
  match s with
  | EmptyString => EmptyString
  | String c s' => String (lower_char c) (lower s')
  end.

(** [s.startswith(p)] *)
Fixpoint startswith (p s : string) : bool :=
  match p, s with
  | EmptyString, _ => true
  | String _ _, EmptyString => false
  | String a p', String b s' => Ascii.eqb a b && startswith p' s'
  end.

(** [k in s] *)
Fixpoint contains (k s : string) : bool :=
  startswith k s ||
  match s with
  | EmptyString => false
  | String _ s' => contains k s'
  end.

(** [c.isspace()] for a code point below 128: tab, line feed, vertical
    tab, form feed, carriage return, the four separators 28..31 and the
    space. *)
Definition isspace (c : ascii) : bool :=
  let n := nat_of_ascii c in
  ((9 <=? n) && (n <=? 13)) || ((28 <=? n) && (n <=? 32)).

(** [s.split()] with no separator: maximal runs of non-whitespace
    characters.  [word] is the run read so far. *)
Fixpoint split_from (word s : string) : list string :=
  match s with
  | EmptyString =>
      match word with EmptyString => [] | _ => [word] end
  | String c s' =>
      if isspace c then
        match word with
        | EmptyString => split_from EmptyString s'
        | _ => word :: split_from EmptyString s'
        end
      else split_from (word ++ String c EmptyString) s'
  end.

Definition split (s : string) : list string := split_from EmptyString s.

(** [sep.join(ws)] *)
Fixpoint join (sep : string) (ws : list string) : string :=
  match ws with
  | [] => EmptyString
  | [w] => w
  | w :: rest => w ++ sep ++ join sep rest
  end.

(** [range(start, stop, step)] for a positive step; [fuel] bounds the
    number of elements. *)
Fixpoint range_fuel (fuel start stop step : nat) : list nat :=
  match fuel with
  | O => []
  | S fuel' =>
      if start <? stop then start :: range_fuel fuel' (start + step) stop step
      else []
  end.

Definition range (start stop step : nat) : list nat :=
  range_fuel (stop - start) start stop step.

(** [xs[i:j]] for [0 <= i <= j] *)
Definition slice {A} (xs : list A) (i j : nat) : list A :=
  firstn (j - i) (skipn i xs).

(** Truth value of an [Optional[str]]: [None] and [""] are falsy. *)
Definition truthy (o : option string) : bool :=
  match o with
  | Some (String _ _) => true
  | _ => false
  end.

End PyStr.

(* ================================================================== *)
(** * Classifier and model selector *)
(* ================================================================== *)

Definition code_keywords : list string :=
  ["code"; "function"; "debug"; "programming"; "python"; "javascript";
   "error"; "bug"; "syntax"; "algorithm"; "script"; "class"; "method"].

Definition research_keywords : list string :=
  ["research"; "analyze"; "compare"; "find"; "study"; "investigate";
   "information"; "data"; "facts"; "explain"; "analysis"; "summary"].

Definition task_keywords : list string :=
  ["how to"; "steps"; "guide"; "tutorial"; "help"; "process";
   "instruction"; "walkthrough"; "procedure"; "setup"].

(** [any(keyword in text for keyword in keywords)] *)
Definition any_keyword_in (keywords : list string) (text : string) : bool :=
  existsb (fun keyword => PyStr.contains keyword text) keywords.

Definition detect_agent (query : string) : string :=
  let query_lower := PyStr.lower query in
  if any_keyword_in code_keywords query_lower then "code"
  else if any_keyword_in research_keywords query_lower then "research"
  else if any_keyword_in task_keywords query_lower then "task"
  else "task".

Definition choose_model (query agent : string) : string :=
  let word_count := List.length (PyStr.split query) in
  if word_count <? 15 then "gemini-flash-8b"
  else if String.eqb agent "code" then "gemini-flash"
  else if 50 <? word_count then "zai-large"
  else "gemini-flash".

(* ================================================================== *)
(** * The world the engine runs in *)
(* ================================================================== *)

(** The dictionary every adapter returns. *)
Module CallResult.
Record t : Type := make {
  response : string;
  confidence : Q;
  processing_time : Q;
  token_count : Z;
  success : bool
}.
End CallResult.

(** A row of the [sessions] table: the eight columns [save_session]
    inserts.  The [id] and [timestamp] columns are filled in by the engine. *)
Module SessionRow.
Record t : Type := make {
  session_id : string;
  query : string;
  response : string;
  agent_used : string;
  model : string;
  confidence : Q;
  processing_time : Q;
  token_count : Z
}.
End SessionRow.

Module ChatRequest.
Record t : Type := make {
  query : string;
  session_id : option string
}.
End ChatRequest.

Module ChatResponse.
Record t : Type := make {
  agent_used : string;
  response : string;
  model : string;
  confidence : Q;
  processing_time : Q;
  token_count : Z
}.
End ChatResponse.

(** What a remote call or a store operation does: it returns a value or
    raises an [Exception] whose [str(e)] is [msg]. *)
Inductive Outcome (A : Type) : Type :=
| Returns (a : A)
| Raises (msg : string).
Arguments Returns {A} a.
Arguments Raises {A} msg.

(** The object [generate_content] returns.  Reading [response.text] raises
    when the answer holds no text part. *)
Module GeminiResponse.
Record t : Type := make {
  text : Outcome string
}.
End GeminiResponse.

(** The decoded body of a Z.ai completion, as far as the adapter reads it:
    [result["choices"][0]["message"]["content"]], which raises when the path
    is absent or does not lead to a string, and
    [result["usage"]["total_tokens"]] when present (an integer). *)
Module ZaiJson.
Record t : Type := make {
  content : Outcome string;
  total_tokens : option Z
}.
End ZaiJson.

(** A request sent to a provider. *)
Inductive Request : Type :=
| GenerateContent (model_name prompt : string)
| PostChatCompletions (prompt : string).

(** What came back: a response object, a decoded body, or an exception
    raised by the call itself (network error, timeout, status other than
    2xx, body that is not JSON). *)
Inductive Reply : Type :=
| GeminiReply (response : GeminiResponse.t)
| ZaiReply (result : ZaiJson.t)
| Failure (msg : string).

(** One adapter attempt as seen on the wire. *)
Definition Exchange : Type := (Request * Reply)%type.

(** The events of the server-sent stream. *)
Inductive StreamEvent : Type :=
| start (agent : string)
| delta (content : string)
| complete (model : string) (confidence : Q)
| error (message : string).

(** The surroundings of one process: configuration read at start-up and
    the answers of everything outside the program.  Each answer is indexed
    by the number of effects performed so far, so that two identical
    requests may be answered differently. *)
Record Env : Type := mkEnv {
  Z_API_KEY : option string;
  genai_generate_content : nat -> string -> string -> Outcome GeminiResponse.t;
  zai_chat_completions : nat -> option string -> string -> Outcome ZaiJson.t;
  time_time : nat -> Q;
  fresh_session_id : nat -> string;
  sqlite_insert : nat -> SessionRow.t -> Outcome unit
}.

(** What a run has done so far: the number of effects performed, the
    requests sent to the providers with what came back, the lines printed,
    the rows of the [sessions] table in insertion order, and the events the
    stream generator has yielded. *)
Record World : Type := mkWorld {
  tick : nat;
  exchanges : list Exchange;
  stdout : list string;
  sessions : list SessionRow.t;
  emitted : list StreamEvent
}.

(** A computation returns a value or raises, and leaves a world behind. *)
Inductive Res (A : Type) : Type :=
| Ok (a : A)
| Raise (e : string).
Arguments Ok {A} a.
Arguments Raise {A} e.

Definition M (A : Type) : Type := World -> Res A * World.

Definition ret {A} (a : A) : M A := fun w => (Ok a, w).

(** An expression that evaluates to a value or raises, without any other
    effect. *)
Definition eval {A} (o : Outcome A) : M A :=
  fun w =>
    match o with
    | Returns a => (Ok a, w)
    | Raises msg => (Raise msg, w)
    end.

Definition bind {A B} (m : M A) (k : A -> M B) : M B :=
  fun w =>
    match m w with
    | (Ok a, w') => k a w'
    | (Raise e, w') => (Raise e, w')
    end.

(** [try: body  except Exception as e: handler(str(e))] *)
Definition try_except {A} (body : M A) (handler : string -> M A) : M A :=
  fun w =>
    match body w with
    | (Ok a, w') => (Ok a, w')
    | (Raise e, w') => handler e w'
    end.

Declare Scope py_scope.
Delimit Scope py_scope with py.
Notation "x <- m ;; k" := (bind m (fun x => k))
  (at level 61, m at next level, right associativity) : py_scope.
Notation "m ;; k" := (bind m (fun _ => k))
  (at level 61, right associativity) : py_scope.

(** [for x in xs: body(x)] *)
Fixpoint for_each {A} (xs : list A) (body : A -> M unit) : M unit :=
  match xs with
  | [] => ret tt
  | x :: rest => bind (body x) (fun _ => for_each rest body)
  end.

Definition advance (w : World) : World :=
  mkWorld (S (tick w)) (exchanges w) (stdout w) (sessions w) (emitted w).

Definition print (line : string) : M unit :=
  fun w => (Ok tt, mkWorld (tick w) (exchanges w) (stdout w ++ [line])
                           (sessions w) (emitted w)).

(** [yield event] of the stream generator. *)
Definition yield (event : StreamEvent) : M unit :=
  fun w => (Ok tt, mkWorld (tick w) (exchanges w) (stdout w)
                           (sessions w) (emitted w ++ [event])).

Definition record_exchange (x : Exchange) (w : World) : World :=
  mkWorld (S (tick w)) (exchanges w ++ [x]) (stdout w) (sessions w) (emitted w).

(* ================================================================== *)
(** * Adapters, dispatcher, store and endpoints *)
(* ================================================================== *)

Definition nl : string := String (ascii_of_nat 10) EmptyString.

(** [agent_prompts.get(agent, "")] *)
Definition agent_prompts_get (agent : string) : string :=
  if String.eqb agent "code" then
    "You are a Code Assistant. Provide detailed code analysis and explanations:" ++ nl ++ nl
  else if String.eqb agent "research" then
    "You are a Research Assistant. Provide comprehensive analysis and information:" ++ nl ++ nl
  else if String.eqb agent "task" then
    "You are a Task Helper. Provide step-by-step guidance:" ++ nl ++ nl
  else "".

(** The dictionary of an [except] branch; [text] is the formatted error. *)
Definition failure_result (text : string) : CallResult.t :=
  CallResult.make text 0%Q 0%Q 0%Z false.

Section Engine.

Variable env : Env.

Local Open Scope py_scope.

(** [time.time()] *)
Definition now : M Q :=
  fun w => (Ok (time_time env (tick w)), advance w).

(** [genai.GenerativeModel(model_name).generate_content(prompt)] *)
Definition generate_content (model_name prompt : string) : M GeminiResponse.t :=
  fun w =>
    match genai_generate_content env (tick w) model_name prompt with
    | Returns response =>
        (Ok response,
         record_exchange (GenerateContent model_name prompt, GeminiReply response) w)
    | Raises msg =>
        (Raise msg, record_exchange (GenerateContent model_name prompt, Failure msg) w)
    end.

(** The [client.post] to [https://api.z.ai/v1/chat/completions] for the
    model [zai-large] with the bearer token [Z_API_KEY], followed by
    [raise_for_status] and [json]. *)
Definition post_chat_completions (prompt : string) : M ZaiJson.t :=
  fun w =>
    match zai_chat_completions env (tick w) (Z_API_KEY env) prompt with
    | Returns result =>
        (Ok result, record_exchange (PostChatCompletions prompt, ZaiReply result) w)
    | Raises msg =>
        (Raise msg, record_exchange (PostChatCompletions prompt, Failure msg) w)
    end.

(** [cursor.execute('INSERT INTO sessions ...'); conn.commit()] *)
Definition insert_session (row : SessionRow.t) : M unit :=
  fun w =>
    match sqlite_insert env (tick w) row with
    | Returns _ =>
        (Ok tt, mkWorld (S (tick w)) (exchanges w) (stdout w)
                        (sessions w ++ [row]) (emitted w))
    | Raises msg => (Raise msg, advance w)
    end.

(** [f"sess_{int(time.time())}_{uuid.uuid4().hex[:8]}"] *)
Definition new_session_id : M string :=
  fun w => (Ok (fresh_session_id env (tick w)), advance w).

Definition call_gemini_flash (query model : string) : M CallResult.t :=
  try_except
    (start_time <- now ;;
     let model_name :=
       if String.eqb model "gemini-flash-8b" then "gemini-1.5-flash-8b"
       else "gemini-1.5-flash" in
     response <- generate_content model_name query ;;
     end_time <- now ;;
     let processing_time := (end_time - start_time)%Q in
     text <- eval (GeminiResponse.text response) ;;
     let token_count := Z.of_nat (List.length (PyStr.split text)) in
     ret (CallResult.make text 0.9%Q processing_time token_count true))
    (fun e =>
       print ("Gemini error: " ++ e) ;;
       ret (failure_result ("Gemini error: " ++ e))).

Definition call_zai_direct (query : string) : M CallResult.t :=
  try_except
    (start_time <- now ;;
     result <- post_chat_completions query ;;
     end_time <- now ;;
     let processing_time := (end_time - start_time)%Q in
     content <- eval (ZaiJson.content result) ;;
     let token_count :=
       match ZaiJson.total_tokens result with
       | Some total_tokens => total_tokens
       | None => Z.of_nat (List.length (PyStr.split content))
       end in
     ret (CallResult.make content 0.85%Q processing_time token_count true))
    (fun e =>
       print ("Z.ai error: " ++ e) ;;
       ret (failure_result ("Z.ai error: " ++ e))).

Definition call_llm (model query agent : string) : M CallResult.t :=
  let full_query := (agent_prompts_get agent ++ query)%string in
  result <-
    (if PyStr.startswith "gemini" model then call_gemini_flash full_query model
     else if String.eqb model "zai-large" then call_zai_direct full_query
     else call_gemini_flash full_query "gemini-flash") ;;
  if negb (CallResult.success result) then
    print ("Primary model " ++ model ++ " failed, trying fallback...") ;;
    result <-
      (if negb (String.eqb model "gemini-flash")
       then call_gemini_flash full_query "gemini-flash"
       else ret result) ;;
    if negb (CallResult.success result) && PyStr.truthy (Z_API_KEY env)
    then call_zai_direct full_query
    else ret result
  else ret result.

(** [DatabaseManager.save_session] *)
Definition save_session (session_id query : string) (response_data : CallResult.t)
    (agent model : string) : M bool :=
  try_except
    (insert_session
       (SessionRow.make session_id query
          (CallResult.response response_data) agent model
          (CallResult.confidence response_data)
          (CallResult.processing_time response_data)
          (CallResult.token_count response_data)) ;;
     print ("Session saved: " ++ session_id) ;;
     ret true)
    (fun e =>
       print ("Error saving session: " ++ e) ;;
       ret false).

(** [request.session_id or f"sess_..."] *)
Definition session_id_of (request : ChatRequest.t) : M string :=
  match ChatRequest.session_id request with
  | Some (String c s) => ret (String c s)
  | _ => new_session_id
  end.

Definition chat_endpoint (request : ChatRequest.t) : M ChatResponse.t :=
  session_id <- session_id_of request ;;
  let agent := detect_agent (ChatRequest.query request) in
  let model := choose_model (ChatRequest.query request) agent in
  result <- call_llm model (ChatRequest.query request) agent ;;
  _ <- save_session session_id (ChatRequest.query request) result agent model ;;
  ret (ChatResponse.make agent
         (CallResult.response result)
         model
         (CallResult.confidence result)
         (CallResult.processing_time result)
         (CallResult.token_count result)).

(** The generator of [stream_chat], run to exhaustion. *)
Definition generate_stream (request : ChatRequest.t) (session_id : string) : M unit :=
  try_except
    (yield (start (detect_agent (ChatRequest.query request))) ;;
     let agent := detect_agent (ChatRequest.query request) in
     let model := choose_model (ChatRequest.query request) agent in
     result <- call_llm model (ChatRequest.query request) agent ;;
     let response_text := CallResult.response result in
     let words := PyStr.split response_text in
     for_each (PyStr.range 0 (List.length words) 5)
       (fun i =>
          let chunk := PyStr.join " " (PyStr.slice words i (i + 5)) in
          yield (delta chunk)) ;;
     yield (complete model (CallResult.confidence result)) ;;
     _ <- save_session session_id (ChatRequest.query request) result agent model ;;
     ret tt)
    (fun e => yield (error e)).

Definition stream_chat (request : ChatRequest.t) : M unit :=
  session_id <- session_id_of request ;;
  generate_stream request session_id.

End Engine.

(* ================================================================== *)
(** * Vocabulary of the statements *)
(* ================================================================== *)

(** [k] occurs in [q] up to the case of letters: some substring of [q]
    lower-cases to [k]. *)
Definition occurs_ci (k q : string) : Prop :=
  exists pre mid suf : string,
    q = (pre ++ mid ++ suf)%string /\ PyStr.lower mid = k.

Definition whitespace_only (s : string) : bool :=
  forallb PyStr.isspace (list_ascii_of_string s).

(** A word as [split] returns it: not empty, no whitespace inside. *)
Definition is_word (s : string) : bool :=
  match s with
  | EmptyString => false
  | _ => forallb (fun c => negb (PyStr.isspace c)) (list_ascii_of_string s)
  end.

(** The exception an exchange ends in, if any: raised by the call, or by
    reading the text out of what came back. *)
Definition error_of (x : Exchange) : option string :=
  match snd x with
  | Failure msg => Some msg
  | GeminiReply response =>
      match GeminiResponse.text response with
      | Raises msg => Some msg
      | Returns _ => None
      end
  | ZaiReply result =>
      match ZaiJson.content result with
      | Raises msg => Some msg
      | Returns _ => None
      end
  end.

(** The text an exchange delivers, if any. *)
Definition answer_of (x : Exchange) : option string :=
  match snd x with
  | Failure _ => None
  | GeminiReply response =>
      match GeminiResponse.text response with
      | Returns text => Some text
      | Raises _ => None
      end
  | ZaiReply result =>
      match ZaiJson.content result with
      | Returns content => Some content
      | Raises _ => None
      end
  end.

(** Did the provider fail to answer this request? *)
Definition failed (x : Exchange) : bool :=
  match error_of x with
  | Some _ => true
  | None => false
  end.

Definition error_prefix (req : Request) : string :=
  match req with
  | GenerateContent _ _ => "Gemini error: "
  | PostChatCompletions _ => "Z.ai error: "
  end.

(** The dictionary an adapter returns for a failed exchange. *)
Definition failure_of (x : Exchange) : option CallResult.t :=
  match error_of x with
  | Some msg => Some (failure_result (error_prefix (fst x) ++ msg))
  | None => None
  end.

(** [r] is the dictionary the adapter builds from the exchange [x]; the
    duration of a successful call is left open. *)
Definition normalizes (x : Exchange) (r : CallResult.t) : Prop :=
  match error_of x with
  | Some msg => r = failure_result (error_prefix (fst x) ++ msg)
  | None =>
      match snd x with
      | Failure _ => False
      | GeminiReply response =>
          answer_of x = Some (CallResult.response r) /\
          CallResult.confidence r = 0.9%Q /\
          CallResult.token_count r =
            Z.of_nat (List.length (PyStr.split (CallResult.response r))) /\
          CallResult.success r = true
      | ZaiReply result =>
          answer_of x = Some (CallResult.response r) /\
          CallResult.confidence r = 0.85%Q /\
          CallResult.token_count r =
            match ZaiJson.total_tokens result with
            | Some total_tokens => total_tokens
            | None => Z.of_nat (List.length (PyStr.split (CallResult.response r)))
            end /\
          CallResult.success r = true
      end
  end.

(** The Gemini model a model name resolves to inside [call_gemini_flash]. *)
Definition gemini_model_name (model : string) : string :=
  if String.eqb model "gemini-flash-8b" then "gemini-1.5-flash-8b"
  else "gemini-1.5-flash".

(** The request of the primary attempt of [call_llm]. *)
Definition primary_request (model full_query : string) : Request :=
  if PyStr.startswith "gemini" model
  then GenerateContent (gemini_model_name model) full_query
  else if String.eqb model "zai-large" then PostChatCompletions full_query
  else GenerateContent "gemini-1.5-flash" full_query.

(** The request of the default fallback model, [gemini-flash]. *)
Definition default_fallback_request (full_query : string) : Request :=
  GenerateContent "gemini-1.5-flash" full_query.

(** One adapter invocation: it sends [req], the exchange [x] is appended to
    the log, [r] is its normalized result, and neither the store nor the
    stream is touched. *)
Definition one_attempt (req : Request) (w : World) (x : Exchange)
    (r : CallResult.t) (w' : World) : Prop :=
  fst x = req /\ normalizes x r /\
  CallResult.success r = negb (failed x) /\
  exchanges w' = (exchanges w ++ [x])%list /\
  sessions w' = sessions w /\ emitted w' = emitted w.

(** The attempts of one dispatch: the primary request; then, when it
    failed and the selected model is not [gemini-flash], the default
    fallback; then, when everything so far failed and a Z.ai key is
    configured, the Z.ai request. *)
Definition fallback_chain (key : option string) (model full_query : string)
    (attempts : list Exchange) : Prop :=
  exists x1 stage2 stage3,
    attempts = (x1 :: stage2 ++ stage3)%list /\
    fst x1 = primary_request model full_query /\
    (if failed x1 && negb (String.eqb model "gemini-flash")
     then exists x2, stage2 = [x2] /\
                     fst x2 = default_fallback_request full_query
     else stage2 = []) /\
    (if forallb failed (x1 :: stage2) && PyStr.truthy key
     then exists x3, stage3 = [x3] /\
                     fst x3 = PostChatCompletions full_query
     else stage3 = []).

(** The same surroundings with another store behind [save_session]. *)
Definition with_store (env : Env)
    (insert : nat -> SessionRow.t -> Outcome unit) : Env :=
  mkEnv (Z_API_KEY env) (genai_generate_content env)
        (zai_chat_completions env) (time_time env) (fresh_session_id env)
        insert.

(** The row [chat_endpoint] hands to the store. *)
Definition session_row (session_id query agent model : string)
    (result : CallResult.t) : SessionRow.t :=
  SessionRow.make session_id query (CallResult.response result) agent model
    (CallResult.confidence result) (CallResult.processing_time result)
    (CallResult.token_count result).

Definition response_of (agent model : string) (result : CallResult.t)
    : ChatResponse.t :=
  ChatResponse.make agent (CallResult.response result) model
    (CallResult.confidence result) (CallResult.processing_time result)
    (CallResult.token_count result).

(** ** Concrete surroundings used in the examples *)

Definition empty_world : World := mkWorld 0 [] [] [] [].

(** Only [gemini-1.5-flash] answers; the 8b model is over quota, Z.ai
    rejects the call, no Z.ai key is configured and the store is healthy. *)
Definition env_flash_only : Env :=
  mkEnv None
    (fun _ model_name _ =>
       if String.eqb model_name "gemini-1.5-flash"
       then Returns (GeminiResponse.make (Returns "four"))
       else Raises "quota exceeded")
    (fun _ _ _ => Raises "401 Unauthorized")
    (fun n => inject_Z (Z.of_nat n))
    (fun _ => "sess_0_deadbeef")
    (fun _ _ => Returns tt).

(** Every provider is down; a Z.ai key is configured. *)
Definition env_all_down : Env :=
  mkEnv (Some "zk")
    (fun _ _ _ => Raises "503 Service Unavailable")
    (fun _ _ _ => Raises "timed out")
    (fun n => inject_Z (Z.of_nat n))
    (fun _ => "sess_0_deadbeef")
    (fun _ _ => Returns tt).

(** Gemini answers with thirteen words. *)
Definition env_thirteen : Env :=
  mkEnv None
    (fun _ _ _ => Returns (GeminiResponse.make (Returns "a b c d e f g h i j k l m")))
    (fun _ _ _ => Raises "401 Unauthorized")
    (fun n => inject_Z (Z.of_nat n))
    (fun _ => "sess_0_deadbeef")
    (fun _ _ => Returns tt).

Definition ask (query : string) : ChatRequest.t := ChatRequest.make query None.



(* ================================================================== *)
(** * More vocabulary: prompts, logs, the stream *)
(* ================================================================== *)

Open Scope string_scope.
Open Scope nat_scope.

(** The prompt a request carries. *)
Definition prompt_of (req : Request) : string :=
  match req with
  | GenerateContent _ prompt => prompt
  | PostChatCompletions prompt => prompt
  end.


(** A reply of the kind its request asks for. *)
Definition paired (x : Exchange) : Prop :=
  match fst x, snd x with
  | GenerateContent _ _, ZaiReply _ => False
  | PostChatCompletions _, GeminiReply _ => False
  | _, _ => True
  end.

(** The line an adapter prints for an exchange: none when it answered. *)
Definition error_line (x : Exchange) : list string :=
  match error_of x with
  | Some msg => [error_prefix (fst x) ++ msg]
  | None => []
  end.

(** The lines [call_llm] prints for a chain of attempts. *)
Definition dispatch_log (model : string) (attempts : list Exchange) : list string :=
  match attempts with
  | [] => []
  | x1 :: rest =>
      (error_line x1
       ++ (if failed x1
           then [("Primary model " ++ model ++ " failed, trying fallback...")%string]
           else [])
       ++ flat_map error_line rest)%list
  end.

(** The world with another sequence of yielded events. *)
Definition with_emitted (events : list StreamEvent) (w : World) : World :=
  mkWorld (tick w) (exchanges w) (stdout w) (sessions w) events.

(** A computation that neither reads nor writes the yielded events. *)
Definition stream_blind {A} (m : M A) : Prop :=
  forall events w,
    m (with_emitted events w) = (fst (m w), with_emitted events (snd (m w))).

(** The value of [request.session_id or f"sess_..."] in a world. *)
Definition given_session_id (env : Env) (request : ChatRequest.t) (w : World) : string :=
  match ChatRequest.session_id request with
  | Some (String c s) => String c s
  | _ => fresh_session_id env (tick w)
  end.

(* ================================================================== *)
(** * Status endpoints and the read side of the store *)
(* ================================================================== *)

(** An entry of the list [get_models_status] returns. *)
Module ModelInfo.
Record t : Type := make {
  model : string;
  status : string;
  provider : string
}.
End ModelInfo.

(** The answer of [get_models_status]. *)
Module ModelsStatus.
Record t : Type := make {
  models : list ModelInfo.t;
  total_models : nat;
  healthy_models : nat;
  timestamp : string
}.
End ModelsStatus.

(** The answer of [health_check]. *)
Module Health.
Record t : Type := make {
  status : string;
  timestamp : string;
  models_available : nat
}.
End Health.

(** A row of [get_model_stats]: one per model. *)
Module ModelStats.
Record t : Type := make {
  model : string;
  usage_count : nat;
  avg_processing_time : Q;
  avg_confidence : Q;
  total_tokens : Z
}.
End ModelStats.

(** A row of [get_agent_stats]: one per category. *)
Module AgentStats.
Record t : Type := make {
  agent_used : string;
  usage_count : nat;
  avg_processing_time : Q;
  avg_confidence : Q
}.
End AgentStats.

(** [d.get(k)] on a dictionary kept as a list of items. *)
Fixpoint dict_get {V} (k : string) (d : list (string * V)) : option V :=
  match d with
  | [] => None
  | (k', v) :: rest => if String.eqb k' k then Some v else dict_get k rest
  end.

(** SQL aggregates over the rows of one group. *)
Definition sql_sum (xs : list Z) : Z := fold_right Z.add 0%Z xs.

(** [AVG]: the sum over the count, in the rationals. *)
Definition sql_avg (xs : list Q) : Q :=
  (fold_right Qplus 0%Q xs / inject_Z (Z.of_nat (List.length xs)))%Q.

(** The rows of the group of [k] under [GROUP BY key]. *)
Definition group_of {R} (key : R -> string) (k : string) (rows : list R)
    : list R :=
  filter (fun row => String.eqb (key row) k) rows.

(** The keys of [GROUP BY key], each once.  SQL leaves the order of the
    groups open; here it is the order of their last rows. *)
Definition group_keys {R} (key : R -> string) (rows : list R) : list string :=
  nodup string_dec (map key rows).

(** The aggregates of the group of one model, and of one category. *)
Definition model_stats_row (rows : list SessionRow.t) (model : string)
    : ModelStats.t :=
  let g := group_of SessionRow.model model rows in
  ModelStats.make model (List.length g)
    (sql_avg (map SessionRow.processing_time g))
    (sql_avg (map SessionRow.confidence g))
    (sql_sum (map SessionRow.token_count g)).

Definition agent_stats_row (rows : list SessionRow.t) (agent : string)
    : AgentStats.t :=
  let g := group_of SessionRow.agent_used agent rows in
  AgentStats.make agent (List.length g)
    (sql_avg (map SessionRow.processing_time g))
    (sql_avg (map SessionRow.confidence g)).

Section Server.

Variable env : Env.

(** [os.getenv("GEMINI_API_KEY")] *)
Variable GEMINI_API_KEY : option string.

(** [datetime.now().isoformat()], by the number of effects so far. *)
Variable datetime_now_isoformat : nat -> string.

(** Whether a statement other than the insert goes through: connecting,
    executing and fetching, by the number of effects so far. *)
Variable sqlite_execute : nat -> Outcome unit.

Local Open Scope py_scope.

(** [datetime.now().isoformat()] *)
Definition isoformat_now : M string :=
  fun w => (Ok (datetime_now_isoformat (tick w)), advance w).

Definition get_models_status : M ModelsStatus.t :=
  let models := [] in
  let models :=
    if PyStr.truthy GEMINI_API_KEY
    then (models ++ [ModelInfo.make "gemini-flash" "available" "google";
                     ModelInfo.make "gemini-flash-8b" "available" "google"])%list
    else models in
  let models :=
    if PyStr.truthy (Z_API_KEY env)
    then (models ++ [ModelInfo.make "zai-large" "available" "zai"])%list
    else models in
  timestamp <- isoformat_now ;;
  ret (ModelsStatus.make models (List.length models)
         (List.length
            (filter (fun m => String.eqb (ModelInfo.status m) "available") models))
         timestamp).

Definition health_check : M Health.t :=
  let available_keys :=
    List.length (filter PyStr.truthy [GEMINI_API_KEY; Z_API_KEY env]) in
  timestamp <- isoformat_now ;;
  ret (Health.make "healthy" timestamp available_keys).

(** [cursor.execute('SELECT ...'); cursor.fetchall()]: the answer computed
    from the rows of the table, or the exception of the engine. *)
Definition select {A} (answer : list SessionRow.t -> A) : M A :=
  fun w =>
    match sqlite_execute (tick w) with
    | Returns _ => (Ok (answer (sessions w)), advance w)
    | Raises msg => (Raise msg, advance w)
    end.

(** [cursor.execute('DELETE FROM sessions'); conn.commit()] *)
Definition delete_all : M unit :=
  fun w =>
    match sqlite_execute (tick w) with
    | Returns _ =>
        (Ok tt, mkWorld (S (tick w)) (exchanges w) (stdout w) [] (emitted w))
    | Raises msg => (Raise msg, advance w)
    end.

Definition get_model_stats : M (list (string * ModelStats.t)) :=
  try_except
    (rows <- select (fun table =>
                       map (model_stats_row table)
                           (group_keys SessionRow.model table)) ;;
     let result := map (fun row => (ModelStats.model row, row)) rows in
     ret result)
    (fun e =>
       print ("Error getting model stats: " ++ e) ;;
       ret []).

Definition get_agent_stats : M (list (string * AgentStats.t)) :=
  try_except
    (rows <- select (fun table =>
                       map (agent_stats_row table)
                           (group_keys SessionRow.agent_used table)) ;;
     let result := map (fun row => (AgentStats.agent_used row, row)) rows in
     ret result)
    (fun e =>
       print ("Error getting agent stats: " ++ e) ;;
       ret []).

Definition clear_all_sessions : M bool :=
  try_except
    (delete_all ;;
     print "All sessions deleted" ;;
     ret true)
    (fun e =>
       print ("Error clearing sessions: " ++ e) ;;
       ret false).

Definition count_sessions : M nat :=
  try_except
    (count <- select (fun table => List.length table) ;;
     ret count)
    (fun e =>
       print ("Error counting sessions: " ++ e) ;;
       ret 0).

End Server.

(** Reading an entry of the model statistics: a model without rows counts
    for nothing. *)
Definition usage_of (entry : option ModelStats.t) : nat :=
  match entry with
  | Some s => ModelStats.usage_count s
  | None => 0
  end.

Definition tokens_of (entry : option ModelStats.t) : Z :=
  match entry with
  | Some s => ModelStats.total_tokens s
  | None => 0%Z
  end.

(** A store whose statements all go through. *)
Definition store_up : nat -> Outcome unit := fun _ => Returns tt.

(* ================================================================== *)
(** * Session history and recent sessions *)
(* ================================================================== *)

(** A row of the table with all its columns, as [dict(row)] shows it; a
    [timestamp] is an integer that grows with time. *)
Module StoredSession.
Record t : Type := make {
  id : Z;
  timestamp : Z;
  columns : SessionRow.t
}.
End StoredSession.

(** A row of [get_recent_sessions]: one per session. *)
Module RecentSession.
Record t : Type := make {
  session_id : string;
  last_activity : Z;
  message_count : nat
}.
End RecentSession.

(** [LIMIT ?]: a negative limit is no limit. *)
Definition sql_limit {A} (limit : Z) (rows : list A) : list A :=
  if (limit <? 0)%Z then rows else firstn (Z.to_nat limit) rows.

(** [MAX] over the rows of a group, which is not empty. *)
Definition sql_max (xs : list Z) : Z :=
  match xs with
  | [] => 0%Z
  | x :: rest => fold_right Z.max x rest
  end.

(** Insertion into a list sorted by decreasing [key]. *)
Fixpoint insert_desc {A} (key : A -> Z) (a : A) (l : list A) : list A :=
  match l with
  | [] => [a]
  | b :: rest =>
      if (key b <=? key a)%Z then a :: l else b :: insert_desc key a rest
  end.

(** A sort by decreasing [key]: one ordering an engine may use. *)
Definition sort_desc (A : Type) (key : A -> Z) (l : list A) : list A :=
  fold_right (insert_desc key) [] l.

Section History.

(** The [id] and the [timestamp] the engine gave to the row at each
    position of the table. *)
Variable rowid : nat -> Z.
Variable stamp : nat -> Z.

(** [ORDER BY ... DESC] as the engine does it; the order among equal keys
    is the engine's. *)
Variable order_desc : forall A : Type, (A -> Z) -> list A -> list A.

Variable sqlite_execute : nat -> Outcome unit.

Local Open Scope py_scope.

(** The table with the columns the engine fills in. *)
Definition stored_table (rows : list SessionRow.t) : list StoredSession.t :=
  map (fun item => StoredSession.make (rowid (fst item)) (stamp (fst item)) (snd item))
      (combine (seq 0 (List.length rows)) rows).

(** The [session_id] column of a stored row. *)
Definition session_of (s : StoredSession.t) : string :=
  SessionRow.session_id (StoredSession.columns s).

Definition get_session_history (session_id : string) (limit : Z)
    : M (list StoredSession.t) :=
  try_except
    (rows <- select sqlite_execute
               (fun table =>
                  sql_limit limit
                    (order_desc _ StoredSession.timestamp
                       (group_of session_of session_id (stored_table table)))) ;;
     let result := rows in
     ret result)
    (fun e =>
       print ("Error getting history: " ++ e) ;;
       ret []).

(** The aggregates of the group of one session. *)
Definition recent_row (table : list StoredSession.t) (session_id : string)
    : RecentSession.t :=
  let g := group_of session_of session_id table in
  RecentSession.make session_id
    (sql_max (map StoredSession.timestamp g)) (List.length g).

Definition get_recent_sessions (limit : Z) : M (list RecentSession.t) :=
  try_except
    (rows <- select sqlite_execute
               (fun table =>
                  sql_limit limit
                    (order_desc _ RecentSession.last_activity
                       (map (recent_row (stored_table table))
                            (group_keys session_of (stored_table table))))) ;;
     let result := rows in
     ret result)
    (fun e =>
       print ("Error getting recent sessions: " ++ e) ;;
       ret []).

End History.

(** Sorted by decreasing [key]. *)
Definition sorted_desc {A} (key : A -> Z) (l : list A) : Prop :=
  StronglySorted (fun a b => (key b <= key a)%Z) l.

Open Scope string_scope.
Open Scope list_scope.
Open Scope nat_scope.

(* ================================================================== *)
(** * Strings: lower-casing, substrings, splitting *)
(* ================================================================== *)

Section StringFacts.

Local Open Scope string_scope.


Lemma append_assoc (a b c : string) : (a ++ b) ++ c = a ++ b ++ c.
Proof. induction a; simpl; congruence. Qed.

Lemma lower_app (a b : string) :
  PyStr.lower (a ++ b) = PyStr.lower a ++ PyStr.lower b.
Proof. induction a; simpl; congruence. Qed.

Lemma lower_app_inv (q a b : string) :
  PyStr.lower q = a ++ b ->
  exists a' b', q = a' ++ b' /\ PyStr.lower a' = a /\ PyStr.lower b' = b.
Proof.
  revert q; induction a as [|c a IH]; intros q H.
  - exists "", q; auto.
  - destruct q as [|d q]; simpl in H; [discriminate|].
    injection H as Hc Hq.
    destruct (IH _ Hq) as (a' & b' & -> & Ha & Hb).
    exists (String d a'), b'; simpl; subst; auto.
Qed.

Lemma startswith_app (k s : string) : PyStr.startswith k (k ++ s) = true.
Proof.
  induction k; simpl; [reflexivity|].
  now rewrite Ascii.eqb_refl.
Qed.

Lemma startswith_inv (k s : string) :
  PyStr.startswith k s = true -> exists suf, s = k ++ suf.
Proof.
  revert s; induction k as [|a k IH]; intros s H.
  - exists s; reflexivity.
  - destruct s as [|b s]; simpl in H; [discriminate|].
    apply andb_true_iff in H as [Hab Hk].
    apply Ascii.eqb_eq in Hab; subst b.
    destruct (IH _ Hk) as [suf ->].
    exists suf; reflexivity.
Qed.

Lemma startswith_contains (k s : string) :
  PyStr.startswith k s = true -> PyStr.contains k s = true.
Proof. intros H; destruct s; simpl; rewrite H; reflexivity. Qed.

Lemma contains_app (k pre suf : string) :
  PyStr.contains k (pre ++ k ++ suf) = true.
Proof.
  induction pre as [|c pre IH]; simpl.
  - apply startswith_contains, startswith_app.
  - rewrite IH; apply orb_true_r.
Qed.

Lemma contains_inv (k s : string) :
  PyStr.contains k s = true -> exists pre suf, s = pre ++ k ++ suf.
Proof.
  induction s as [|c s IH]; simpl; intros H.
  - rewrite orb_false_r in H.
    destruct (startswith_inv _ _ H) as [suf E]; exists "", suf; exact E.
  - apply orb_true_iff in H as [H|H].
    + destruct (startswith_inv _ _ H) as [suf E]; exists "", suf; exact E.
    + destruct (IH H) as (pre & suf & ->).
      exists (String c pre), suf; reflexivity.
Qed.

(** The substring test on the lower-cased query decides [occurs_ci]. *)
Lemma occurs_ci_iff (k q : string) :
  occurs_ci k q <-> PyStr.contains k (PyStr.lower q) = true.
Proof.
  split.
  - intros (pre & mid & suf & -> & <-).
    rewrite !lower_app; apply contains_app.
  - intros H.
    destruct (contains_inv _ _ H) as (pre & suf & E).
    destruct (lower_app_inv _ _ _ E) as (pre' & rest & -> & _ & E2).
    destruct (lower_app_inv _ _ _ E2) as (mid & suf' & -> & Hm & _).
    exists pre', mid, suf'; auto.
Qed.

Lemma any_keyword_in_iff (keywords : list string) (q : string) :
  any_keyword_in keywords (PyStr.lower q) = true <->
  exists k, In k keywords /\ occurs_ci k q.
Proof.
  unfold any_keyword_in; rewrite existsb_exists.
  split; intros (k & Hin & H); exists k; split; auto; now apply occurs_ci_iff.
Qed.

End StringFacts.

Section SplitFacts.

Local Open Scope string_scope.






Lemma isspace_not_upper (c : ascii) :
  PyStr.isspace c = true -> PyStr.lower_char c = c.
Proof.
  destruct c as [[] [] [] [] [] [] [] []]; vm_compute; intros H;
    first [reflexivity | discriminate H].
Qed.

Lemma lower_whitespace (s : string) :
  whitespace_only s = true -> PyStr.lower s = s.
Proof.
  unfold whitespace_only; induction s as [|c s IH]; simpl; intros H; [reflexivity|].
  apply andb_true_iff in H as [Hc Hs].
  now rewrite isspace_not_upper, IH.
Qed.

Lemma split_whitespace (s : string) :
  whitespace_only s = true -> PyStr.split s = [].
Proof.
  unfold whitespace_only, PyStr.split; induction s as [|c s IH]; simpl; intros H;
    [reflexivity|].
  apply andb_true_iff in H as [Hc Hs].
  rewrite Hc; auto.
Qed.

(** A keyword that starts with a visible character occurs in no run of
    whitespace. *)
Lemma contains_whitespace (k s : string) :
  is_word (substring 0 1 k) = true ->
  whitespace_only s = true ->
  PyStr.contains k s = false.
Proof.
  intros Hk; destruct k as [|a k]; [discriminate|].
  assert (Ha : PyStr.isspace a = false).
  { simpl in Hk. destruct k; simpl in Hk;
      rewrite andb_true_r in Hk; now apply negb_true_iff. }
  clear Hk; unfold whitespace_only.
  induction s as [|c s IH]; simpl; intros H; [reflexivity|].
  apply andb_true_iff in H as [Hc Hs].
  rewrite (IH Hs), orb_false_r.
  destruct (Ascii.eqb a c) eqn:E; [|reflexivity].
  apply Ascii.eqb_eq in E; congruence.
Qed.

Lemma any_keyword_whitespace (keywords : list string) (s : string) :
  forallb (fun k => is_word (substring 0 1 k)) keywords = true ->
  whitespace_only s = true ->
  any_keyword_in keywords s = false.
Proof.
  unfold any_keyword_in; intros Hk Hs.
  induction keywords as [|k ks IH]; simpl in *; [reflexivity|].
  apply andb_true_iff in Hk as [H1 H2].
  now rewrite contains_whitespace, IH.
Qed.

End SplitFacts.

(* ================================================================== *)
(** * Classification and model selection *)
(* ================================================================== *)

(** C4. A query in which a code keyword occurs, whatever the case of its
    letters and whatever other keywords occur in it, is classified [code];
    a query in which no keyword of the three sets occurs is classified
    [task]; and the classifier always answers one of [code], [research]
    and [task]. *)
Theorem detect_agent_precedence (query : string) :
  ((exists k, In k code_keywords /\ occurs_ci k query) ->
   detect_agent query = "code") /\
  ((forall k, In k (code_keywords ++ research_keywords ++ task_keywords) ->
              ~ occurs_ci k query) ->
   detect_agent query = "task") /\
  (detect_agent query = "code" \/ detect_agent query = "research" \/
   detect_agent query = "task").
Proof.
  unfold detect_agent; split; [|split].
  - intros H; apply any_keyword_in_iff in H; now rewrite H.
  - intros H.
    destruct (any_keyword_in code_keywords _) eqn:Ec.
    { apply any_keyword_in_iff in Ec as (k & Hin & Hk).
      exfalso; apply (H k); [apply in_or_app; auto | exact Hk]. }
    destruct (any_keyword_in research_keywords _) eqn:Er.
    { apply any_keyword_in_iff in Er as (k & Hin & Hk).
      exfalso; apply (H k); [apply in_or_app; right; apply in_or_app; auto | exact Hk]. }
    now destruct (any_keyword_in task_keywords _).
  - destruct (any_keyword_in code_keywords _); auto.
    destruct (any_keyword_in research_keywords _); auto.
    destruct (any_keyword_in task_keywords _); auto.
Qed.

Lemma detect_agent_precedence_witness :
  detect_agent "How to debug this algorithm?" = "code" /\
  detect_agent "What is 2+2?" = "task".
Proof.
  split.
  - apply (proj1 (detect_agent_precedence "How to debug this algorithm?")).
    exists "debug"; split; [simpl; tauto|].
    exists "How to ", "debug", " this algorithm?"; split; reflexivity.
  - apply (proj1 (proj2 (detect_agent_precedence "What is 2+2?"))).
    intros k Hin; rewrite occurs_ci_iff.
    simpl in Hin;
      repeat (destruct Hin as [<-|Hin]; [vm_compute; discriminate|]).
    destruct Hin.
Defined.



(** C9. The empty query, and any query made of whitespace only, is
    classified [task] and sent to the cheapest model: its word count is
    zero. *)
Theorem blank_query_routing (query : string) :
  whitespace_only query = true ->
  PyStr.split query = [] /\
  detect_agent query = "task" /\
  choose_model query (detect_agent query) = "gemini-flash-8b".
Proof.
  intros H.
  assert (Hs : PyStr.split query = []) by now apply split_whitespace.
  assert (Hd : detect_agent query = "task").
  { unfold detect_agent; rewrite lower_whitespace by exact H.
    rewrite !any_keyword_whitespace by (exact H || reflexivity).
    reflexivity. }
  repeat apply conj; auto.
  unfold choose_model; now rewrite Hs.
Qed.

Lemma blank_query_routing_witness :
  (PyStr.split "" = [] /\ detect_agent "" = "task" /\
   choose_model "" (detect_agent "") = "gemini-flash-8b") /\
  (PyStr.split ("  " ++ nl) = [] /\ detect_agent ("  " ++ nl) = "task" /\
   choose_model ("  " ++ nl) (detect_agent ("  " ++ nl)) = "gemini-flash-8b").
Proof.
  split.
  - apply (blank_query_routing ""); reflexivity.
  - apply (blank_query_routing ("  " ++ nl)); reflexivity.
Defined.

(* ================================================================== *)
(** * Runs of the adapters, the dispatcher and the endpoints *)
(* ================================================================== *)

Section Runs.

Variable env : Env.

Local Open Scope string_scope.

(** Each adapter returns a dictionary, whatever the provider does, and
    performs exactly one exchange. *)
Lemma call_gemini_flash_run (query model : string) (w : World) :
  exists x r w',
    call_gemini_flash env query model w = (Ok r, w') /\
    one_attempt (GenerateContent (gemini_model_name model) query) w x r w'.
Proof.
  unfold call_gemini_flash, try_except, bind, now, generate_content, eval,
    print, ret, one_attempt, normalizes, failed, error_of, answer_of,
    gemini_model_name.
  simpl.
  destruct (genai_generate_content env (S (tick w)) _ query)
    as [[[text|msg]]|msg] eqn:E.
  - eexists (_, GeminiReply (GeminiResponse.make (Returns text))), _, _; simpl.
    repeat apply conj; reflexivity.
  - eexists (_, GeminiReply (GeminiResponse.make (Raises msg))), _, _; simpl.
    repeat apply conj; reflexivity.
  - eexists (_, Failure msg), _, _; simpl.
    repeat apply conj; reflexivity.
Qed.

Lemma call_zai_direct_run (query : string) (w : World) :
  exists x r w',
    call_zai_direct env query w = (Ok r, w') /\
    one_attempt (PostChatCompletions query) w x r w'.
Proof.
  unfold call_zai_direct, try_except, bind, now, post_chat_completions, eval,
    print, ret, one_attempt, normalizes, failed, error_of, answer_of.
  simpl.
  destruct (zai_chat_completions env (S (tick w)) _ query)
    as [[[content|msg] usage]|msg] eqn:E.
  - eexists (_, ZaiReply (ZaiJson.make (Returns content) usage)), _, _; simpl.
    repeat apply conj; reflexivity.
  - eexists (_, ZaiReply (ZaiJson.make (Raises msg) usage)), _, _; simpl.
    repeat apply conj; reflexivity.
  - eexists (_, Failure msg), _, _; simpl.
    repeat apply conj; reflexivity.
Qed.

Lemma primary_run (model full_query : string) (w : World) :
  exists x r w',
    (if PyStr.startswith "gemini" model then call_gemini_flash env full_query model
     else if String.eqb model "zai-large" then call_zai_direct env full_query
     else call_gemini_flash env full_query "gemini-flash") w = (Ok r, w') /\
    one_attempt (primary_request model full_query) w x r w'.
Proof.
  unfold primary_request.
  destruct (PyStr.startswith "gemini" model).
  - apply call_gemini_flash_run.
  - destruct (String.eqb model "zai-large").
    + apply call_zai_direct_run.
    + apply (call_gemini_flash_run full_query "gemini-flash").
Qed.

(** A run of the dispatcher: the attempts form a fallback chain and the
    dictionary returned is the normalized last attempt. *)
Lemma call_llm_run (model query agent : string) (w : World) :
  exists attempts r w',
    call_llm env model query agent w = (Ok r, w') /\
    exchanges w' = (exchanges w ++ attempts)%list /\
    sessions w' = sessions w /\ emitted w' = emitted w /\
    fallback_chain (Z_API_KEY env) model (agent_prompts_get agent ++ query) attempts /\
    (forall d, normalizes (last attempts d) r /\
               CallResult.success r = negb (failed (last attempts d))).
Proof.
  unfold call_llm; cbv zeta.
  set (fq := agent_prompts_get agent ++ query).
  destruct (primary_run model fq w) as (x1 & r1 & w1 & E1 & Hreq1 & N1 & S1 & X1 & D1 & Y1).
  unfold bind at 1. rewrite E1.
  rewrite S1, negb_involutive.
  destruct (failed x1) eqn:F1.
  2:{ exists [x1], r1, w1; repeat apply conj; auto.
      - exists x1, [], []; repeat apply conj; auto.
        + now rewrite F1.
        + simpl; now rewrite F1.
      - intros d; simpl; now rewrite F1. }
  unfold bind at 1, print at 1.
  set (w1p := mkWorld _ _ _ _ _).
  assert (Xp : exchanges w1p = (exchanges w ++ [x1])%list) by exact X1.
  assert (Dp : sessions w1p = sessions w) by exact D1.
  assert (Yp : emitted w1p = emitted w) by exact Y1.
  clearbody w1p.
  destruct (String.eqb model "gemini-flash") eqn:Em; simpl negb; cbv iota.
  - unfold bind at 1, ret at 1.
    rewrite S1; simpl negb; rewrite andb_true_l.
    destruct (PyStr.truthy (Z_API_KEY env)) eqn:K.
    + destruct (call_zai_direct_run fq w1p) as (x3 & r3 & w3 & E3 & Hreq3 & N3 & S3 & X3 & D3 & Y3).
      exists [x1; x3], r3, w3; repeat apply conj; auto; try congruence.
      * rewrite X3, Xp, <- app_assoc; reflexivity.
      * exists x1, [], [x3]; repeat apply conj; auto.
        -- now rewrite F1, Em.
        -- simpl; rewrite F1, K; simpl; eauto.
    + exists [x1], r1, w1p; repeat apply conj; auto.
      * exists x1, [], []; repeat apply conj; auto.
        -- now rewrite F1, Em.
        -- simpl; now rewrite F1, K.
      * simpl; now rewrite F1.
  - destruct (call_gemini_flash_run fq "gemini-flash" w1p)
      as (x2 & r2 & w2 & E2 & Hreq2 & N2 & S2 & X2 & D2 & Y2).
    unfold bind at 1; rewrite E2, S2, negb_involutive.
    destruct (failed x2 && PyStr.truthy (Z_API_KEY env)) eqn:G.
    + destruct (call_zai_direct_run fq w2) as (x3 & r3 & w3 & E3 & Hreq3 & N3 & S3 & X3 & D3 & Y3).
      exists [x1; x2; x3], r3, w3; repeat apply conj; auto; try congruence.
      * rewrite X3, X2, Xp, <- !app_assoc; reflexivity.
      * exists x1, [x2], [x3]; repeat apply conj; auto.
        -- rewrite F1, Em; simpl; eauto.
        -- simpl; rewrite F1, andb_true_r; simpl; rewrite G; eauto.
    + exists [x1; x2], r2, w2; repeat apply conj; auto; try congruence.
      * rewrite X2, Xp, <- !app_assoc; reflexivity.
      * exists x1, [x2], []; repeat apply conj; auto.
        -- rewrite F1, Em; simpl; eauto.
        -- simpl; rewrite F1, andb_true_r; simpl; now rewrite G.
Qed.

(** [save_session] never raises; the table grows by the row exactly when
    the insert is accepted, and a line is printed either way. *)
Lemma save_session_run (sid q : string) (r : CallResult.t) (agent model : string)
    (w : World) :
  exists ok w',
    save_session env sid q r agent model w = (Ok ok, w') /\
    exchanges w' = exchanges w /\ emitted w' = emitted w /\
    match sqlite_insert env (tick w) (session_row sid q agent model r) with
    | Returns _ => ok = true /\
        sessions w' = (sessions w ++ [session_row sid q agent model r])%list /\
        stdout w' = (stdout w ++ [("Session saved: " ++ sid)%string])%list
    | Raises msg => ok = false /\ sessions w' = sessions w /\
        stdout w' = (stdout w ++ [("Error saving session: " ++ msg)%string])%list
    end.
Proof.
  unfold save_session, try_except, bind, insert_session, print, ret.
  fold (session_row sid q agent model r).
  destruct (sqlite_insert env (tick w) _) as [[]|msg];
    eexists _, _; simpl; repeat apply conj; reflexivity.
Qed.

Lemma session_id_of_run (request : ChatRequest.t) (w : World) :
  exists sid w0,
    session_id_of env request w = (Ok sid, w0) /\
    exchanges w0 = exchanges w /\ sessions w0 = sessions w /\
    emitted w0 = emitted w.
Proof.
  unfold session_id_of, new_session_id, ret.
  destruct (ChatRequest.session_id request) as [[|c s]|];
    eexists _, _; simpl; repeat apply conj; reflexivity.
Qed.

(** A run of [chat_endpoint], step by step. *)
Lemma chat_endpoint_run (request : ChatRequest.t) (w : World) :
  let q := ChatRequest.query request in
  let agent := detect_agent q in
  let model := choose_model q agent in
  exists sid w0 attempts result w1 ok w',
    session_id_of env request w = (Ok sid, w0) /\
    call_llm env model q agent w0 = (Ok result, w1) /\
    save_session env sid q result agent model w1 = (Ok ok, w') /\
    chat_endpoint env request w = (Ok (response_of agent model result), w') /\
    fallback_chain (Z_API_KEY env) model (agent_prompts_get agent ++ q) attempts /\
    (forall d, normalizes (last attempts d) result /\
               CallResult.success result = negb (failed (last attempts d))) /\
    exchanges w' = (exchanges w ++ attempts)%list /\
    emitted w' = emitted w /\
    match sqlite_insert env (tick w1) (session_row sid q agent model result) with
    | Returns _ => ok = true /\
        sessions w' = (sessions w ++ [session_row sid q agent model result])%list /\
        stdout w' = (stdout w1 ++ [("Session saved: " ++ sid)%string])%list
    | Raises msg => ok = false /\ sessions w' = sessions w /\
        stdout w' = (stdout w1 ++ [("Error saving session: " ++ msg)%string])%list
    end.
Proof.
  intros q agent model.
  destruct (session_id_of_run request w) as (sid & w0 & E0 & X0 & D0 & Y0).
  destruct (call_llm_run model q agent w0)
    as (attempts & result & w1 & E1 & X1 & D1 & Y1 & Hchain & Hlast).
  destruct (save_session_run sid q result agent model w1)
    as (ok & w' & E2 & X2 & Y2 & Hstore).
  exists sid, w0, attempts, result, w1, ok, w'.
  repeat apply conj; auto; try congruence.
  - unfold chat_endpoint; fold q agent model.
    unfold bind; rewrite E0, E1, E2; reflexivity.
  - destruct (sqlite_insert env (tick w1) _); intuition congruence.
Qed.

(** A loop that only yields appends the events in order. *)
Lemma for_each_yield {A} (f : A -> StreamEvent) (xs : list A) (w : World) :
  for_each xs (fun i => yield (f i)) w =
  (Ok tt, mkWorld (tick w) (exchanges w) (stdout w) (sessions w)
                  (emitted w ++ map f xs)).
Proof.
  revert w; induction xs as [|x xs IH]; intros w; simpl.
  - unfold ret; rewrite app_nil_r; now destruct w.
  - unfold bind, yield at 1; rewrite IH; simpl.
    now rewrite <- app_assoc.
Qed.

End Runs.

Section Chunking.

Local Open Scope nat_scope.









End Chunking.

(* ================================================================== *)
(** * The dispatcher and the endpoints *)
(* ================================================================== *)

Section Dispatch.

Local Open Scope string_scope.
Local Open Scope nat_scope.

(** The dispatcher and the session identifier do not look at the store. *)
Lemma call_llm_with_store (env : Env) (insert : nat -> SessionRow.t -> Outcome unit) :
  call_llm (with_store env insert) = call_llm env.
Proof. reflexivity. Qed.

Lemma session_id_of_with_store (env : Env) (insert : nat -> SessionRow.t -> Outcome unit) :
  session_id_of (with_store env insert) = session_id_of env.
Proof. reflexivity. Qed.

(** What [normalizes] says for a failed and for an answered exchange. *)
Lemma failed_failure_of (x : Exchange) (r : CallResult.t) :
  failed x = true -> normalizes x r -> failure_of x = Some r.
Proof.
  unfold failed, normalizes, failure_of.
  destruct (error_of x); intros H N; try discriminate; now subst.
Qed.

Lemma answered_response (x : Exchange) (r : CallResult.t) (text : string) :
  answer_of x = Some text -> normalizes x r ->
  CallResult.response r = text /\ CallResult.success r = true.
Proof.
  unfold normalizes, answer_of, error_of.
  destruct (snd x) as [[[t|m]]|[[t|m] u]|m]; simpl; intros H N;
    try discriminate; destruct N as (A & _ & _ & S); split; congruence.
Qed.

Lemma last_failed (attempts : list Exchange) (d : Exchange) :
  attempts <> [] -> forallb failed attempts = true -> failed (last attempts d) = true.
Proof.
  induction attempts as [|x xs IH]; intros Hne H; [congruence|].
  simpl in H; apply andb_true_iff in H as [Hx Hxs].
  destruct xs as [|y ys]; [exact Hx|].
  change (last (x :: y :: ys) d) with (last (y :: ys) d).
  apply IH; [discriminate | exact Hxs].
Qed.

(** Shape of a chain: between one and three attempts, and every attempt
    before the last one failed. *)
Lemma chain_nonempty key model fq attempts :
  fallback_chain key model fq attempts -> attempts <> [] /\ List.length attempts <= 3.
Proof.
  intros (x1 & s2 & s3 & -> & _ & H2 & H3); split; [discriminate|].
  assert (List.length s2 <= 1).
  { destruct (failed x1 && _); [destruct H2 as (x2 & -> & _)| subst]; simpl; lia. }
  assert (List.length s3 <= 1).
  { destruct (forallb failed _ && _); [destruct H3 as (x3 & -> & _)| subst]; simpl; lia. }
  simpl; rewrite length_app; lia.
Qed.

Lemma chain_all_failed key model fq attempts d :
  fallback_chain key model fq attempts ->
  failed (last attempts d) = true -> forallb failed attempts = true.
Proof.
  intros (x1 & s2 & s3 & -> & _ & H2 & H3) F.
  destruct (forallb failed (x1 :: s2) && PyStr.truthy key) eqn:G3.
  - destruct H3 as (x3 & -> & _).
    apply andb_true_iff in G3 as [G3 _].
    change (x1 :: s2 ++ [x3])%list with ((x1 :: s2) ++ [x3])%list in *.
    rewrite last_last in F.
    rewrite forallb_app, G3; simpl; now rewrite F.
  - subst s3; rewrite app_nil_r in *.
    destruct (failed x1 && negb (String.eqb model "gemini-flash")) eqn:G2.
    + destruct H2 as (x2 & -> & _).
      apply andb_true_iff in G2 as [G2 _].
      simpl in *; now rewrite G2, F.
    + subst s2; simpl in *; now rewrite F.
Qed.

(** C2. Dispatch never raises: for every model name, query and category
    [call_llm] returns a dictionary.  When every attempt of the chain
    failed, the dictionary is the one built from the last attempt: its
    [success] is false, its [confidence] is [0.0] and its [response] is the
    provider's error prefix followed by the message of the exception.  A
    failure is returned in no other case. *)
Theorem call_llm_never_raises (env : Env) (model query agent : string) (w : World) :
  exists attempts r w',
    call_llm env model query agent w = (Ok r, w') /\
    exchanges w' = (exchanges w ++ attempts)%list /\
    attempts <> [] /\
    (forallb failed attempts = true ->
     forall d,
       failure_of (last attempts d) = Some r /\
       CallResult.success r = false /\
       CallResult.confidence r = 0%Q /\
       exists msg, error_of (last attempts d) = Some msg /\
                   CallResult.response r =
                   (error_prefix (fst (last attempts d)) ++ msg)%string) /\
    (CallResult.success r = false <-> forallb failed attempts = true).
Proof.
  destruct (call_llm_run env model query agent w)
    as (attempts & r & w' & E & X & _ & _ & Hchain & Hlast).
  destruct (chain_nonempty _ _ _ _ Hchain) as [Hne _].
  exists attempts, r, w'; repeat apply conj; auto.
  - intros Hall d.
    destruct (Hlast d) as [N S].
    pose proof (last_failed attempts d Hne Hall) as F.
    pose proof (failed_failure_of _ _ F N) as Fo.
    split; [exact Fo|].
    unfold failure_of in Fo; destruct (error_of (last attempts d)) eqn:Es;
      try discriminate.
    injection Fo as <-; repeat apply conj; eauto.
  - intros Hs; destruct (Hlast (GenerateContent "" "", Failure "")) as [_ S].
    rewrite S in Hs; apply negb_false_iff in Hs.
    eapply chain_all_failed; eauto.
  - intros Hall; destruct (Hlast (GenerateContent "" "", Failure "")) as [_ S].
    now rewrite S, (last_failed _ _ Hne Hall).
Qed.

Lemma call_llm_never_raises_witness :
  exists r w',
    call_llm env_all_down "gemini-flash-8b" "What is 2+2?" "task" empty_world = (Ok r, w') /\
    CallResult.success r = false /\
    CallResult.confidence r = 0%Q /\
    CallResult.response r = "Z.ai error: timed out".
Proof.
  destruct (call_llm_never_raises env_all_down "gemini-flash-8b" "What is 2+2?"
              "task" empty_world)
    as (attempts & r & w' & E & X & _ & Hall & _).
  exists r, w'; split; [exact E|].
  assert (Ha : attempts = exchanges w').
  { rewrite X; reflexivity. }
  vm_compute in E; injection E as <- <-.
  subst attempts.
  destruct (Hall eq_refl (GenerateContent "" "", Failure "")) as (_ & S & C & _).
  repeat apply conj; [exact S | exact C | reflexivity].
Defined.


(** Of the three models the selector returns, only [gemini-flash] is served
    by the request of the default fallback. *)
Lemma primary_is_default_iff (query agent full_query : string) :
  let model := choose_model query agent in
  primary_request model full_query = default_fallback_request full_query <->
  model = "gemini-flash".
Proof.
  unfold choose_model.
  destruct (_ <? 15); [|destruct (String.eqb agent "code"); [|destruct (50 <? _)]];
    cbv zeta; unfold primary_request, default_fallback_request; simpl;
    split; intros H; try reflexivity; discriminate H.
Qed.

(** C6. The attempts of one dispatch are the primary request, then at most
    one request to the default fallback model, then at most one request to
    Z.ai, and nothing more.  The default fallback is attempted exactly when
    the primary failed and the selected model is not [gemini-flash]; Z.ai is
    attempted exactly when every attempt so far failed and a Z.ai key is
    configured.  For each model the selector can return, the primary
    request is the default fallback's request only for [gemini-flash]. *)
Theorem fallback_chain_depth_three (env : Env) (model query agent : string)
    (w : World) :
  let full_query := (agent_prompts_get agent ++ query)%string in
  exists attempts r w' x1 stage2 stage3,
    call_llm env model query agent w = (Ok r, w') /\
    exchanges w' = (exchanges w ++ attempts)%list /\
    attempts = (x1 :: stage2 ++ stage3)%list /\
    fst x1 = primary_request model full_query /\
    (failed x1 = true -> model <> "gemini-flash" ->
     exists x2, stage2 = [x2] /\ fst x2 = default_fallback_request full_query) /\
    (failed x1 = false \/ model = "gemini-flash" -> stage2 = []) /\
    (forallb failed (x1 :: stage2) = true ->
     PyStr.truthy (Z_API_KEY env) = true ->
     exists x3, stage3 = [x3] /\ fst x3 = PostChatCompletions full_query) /\
    (forallb failed (x1 :: stage2) = false \/
     PyStr.truthy (Z_API_KEY env) = false -> stage3 = []) /\
    List.length attempts <= 3 /\
    (forall q a, model = choose_model q a ->
       (primary_request model full_query = default_fallback_request full_query
        <-> model = "gemini-flash")).
Proof.
  intros full_query.
  destruct (call_llm_run env model query agent w)
    as (attempts & r & w' & E & X & _ & _ & Hchain & _).
  pose proof (chain_nonempty _ _ _ _ Hchain) as [_ Hlen].
  destruct Hchain as (x1 & s2 & s3 & Ha & Hp & H2 & H3).
  exists attempts, r, w', x1, s2, s3.
  split; [exact E|]. split; [exact X|]. split; [exact Ha|]. split; [exact Hp|].
  split; [|split; [|split; [|split; [|split]]]].
  - intros F Hm; apply String.eqb_neq in Hm.
    now rewrite F, Hm in H2.
  - intros [F|Hm].
    + now rewrite F in H2.
    + apply String.eqb_eq in Hm; rewrite Hm, andb_false_r in H2; exact H2.
  - intros F K; fold full_query in H3; now rewrite F, K in H3.
  - intros [F|K].
    + now rewrite F in H3.
    + rewrite K, andb_false_r in H3; exact H3.
  - exact Hlen.
  - intros q a ->; apply primary_is_default_iff.
Qed.

Lemma fallback_chain_depth_three_witness :
  exists x1 x2 x3,
    exchanges (snd (call_llm env_all_down "gemini-flash-8b" "What is 2+2?" "task"
                      empty_world)) = [x1; x2; x3] /\
    fst x2 = default_fallback_request
               (agent_prompts_get "task" ++ "What is 2+2?") /\
    fst x3 = PostChatCompletions (agent_prompts_get "task" ++ "What is 2+2?").
Proof.
  destruct (fallback_chain_depth_three env_all_down "gemini-flash-8b"
              "What is 2+2?" "task" empty_world)
    as (attempts & r & w' & x1 & s2 & s3 & E & X & Ha & Hp & H2 & _ & H3 & _).
  rewrite E; cbn [snd]; rewrite X; cbn [exchanges empty_world app].
  assert (Hx : attempts = exchanges w') by (rewrite X; reflexivity).
  vm_compute in E; injection E as <- <-.
  rewrite Ha in Hx |- *; cbn [exchanges] in Hx.
  injection Hx as -> Hs.
  destruct (H2 eq_refl) as (x2 & -> & Hx2); [discriminate|].
  cbn [app] in Hs; injection Hs as -> ->.
  destruct (H3 eq_refl eq_refl) as (x3 & Hx3 & Hf3).
  injection Hx3 as <-.
  eexists _, _, _; repeat apply conj; [reflexivity | exact Hx2 | exact Hf3].
Defined.

(** C10. A dictionary with [success] false returned by either adapter has
    [token_count] 0, [confidence] 0.0 and [processing_time] 0.0. *)
Theorem failure_result_fields (env : Env) (query model : string) (w : World)
    (r : CallResult.t) (w' : World) :
  call_gemini_flash env query model w = (Ok r, w') \/
  call_zai_direct env query w = (Ok r, w') ->
  CallResult.success r = false ->
  CallResult.token_count r = 0%Z /\
  CallResult.confidence r = 0%Q /\
  CallResult.processing_time r = 0%Q.
Proof.
  intros H S.
  assert (exists x, normalizes x r /\ failed x = true) as (x & N & F).
  { destruct H as [H|H].
    - destruct (call_gemini_flash_run env query model w)
        as (x & r0 & w0 & E & _ & N & S0 & _).
      rewrite E in H; injection H as -> ->.
      exists x; split; [exact N|].
      rewrite S0 in S; now apply negb_false_iff in S.
    - destruct (call_zai_direct_run env query w)
        as (x & r0 & w0 & E & _ & N & S0 & _).
      rewrite E in H; injection H as -> ->.
      exists x; split; [exact N|].
      rewrite S0 in S; now apply negb_false_iff in S. }
  unfold normalizes, failed in *.
  destruct (error_of x); try discriminate.
  subst r; repeat apply conj; reflexivity.
Qed.

Lemma failure_result_fields_witness :
  CallResult.token_count (failure_result "Gemini error: 503 Service Unavailable") = 0%Z /\
  CallResult.confidence (failure_result "Gemini error: 503 Service Unavailable") = 0%Q /\
  CallResult.processing_time (failure_result "Gemini error: 503 Service Unavailable") = 0%Q.
Proof.
  apply (failure_result_fields env_all_down "hello" "gemini-flash" empty_world
           (failure_result "Gemini error: 503 Service Unavailable")
           (snd (call_gemini_flash env_all_down "hello" "gemini-flash" empty_world))).
  - left; vm_compute; reflexivity.
  - reflexivity.
Defined.




(** C3. One run of [chat_endpoint] issues one append: the row built from the
    dictionary [call_llm] returned, which is the normalized last attempt and,
    when every attempt failed, the failure dictionary of the last one.  When
    the store accepts the write the table grows by exactly that row; when
    the write fails the table is unchanged and the failure is printed.
    Whatever the store does, the endpoint returns the same response and does
    not raise. *)
Theorem chat_endpoint_appends_one_record (env : Env) (request : ChatRequest.t)
    (w : World) :
  let q := ChatRequest.query request in
  let agent := detect_agent q in
  let model := choose_model q agent in
  exists sid w0 attempts result w1 resp w',
    session_id_of env request w = (Ok sid, w0) /\
    call_llm env model q agent w0 = (Ok result, w1) /\
    chat_endpoint env request w = (Ok resp, w') /\
    resp = response_of agent model result /\
    exchanges w' = (exchanges w ++ attempts)%list /\
    (forall d, normalizes (last attempts d) result) /\
    (forallb failed attempts = true ->
     forall d, failure_of (last attempts d) = Some result) /\
    match sqlite_insert env (tick w1) (session_row sid q agent model result) with
    | Returns _ =>
        sessions w' = (sessions w ++ [session_row sid q agent model result])%list
    | Raises msg =>
        sessions w' = sessions w /\
        stdout w' = (stdout w1 ++ [("Error saving session: " ++ msg)%string])%list
    end /\
    (forall insert,
       fst (chat_endpoint (with_store env insert) request w) = Ok resp).
Proof.
  intros q agent model.
  destruct (chat_endpoint_run env request w)
    as (sid & w0 & attempts & result & w1 & ok & w' & E0 & E1 & _ & E & Hchain
        & Hlast & X & _ & Hstore).
  fold q agent model in E1, E, Hchain, Hstore.
  exists sid, w0, attempts, result, w1, (response_of agent model result), w'.
  split; [exact E0|]. split; [exact E1|]. split; [exact E|].
  split; [reflexivity|]. split; [exact X|].
  split; [intros d; apply Hlast|].
  split; [|split].
  - intros Hall d.
    destruct (chain_nonempty _ _ _ _ Hchain) as [Hne _].
    apply failed_failure_of; [now apply last_failed | apply Hlast].
  - destruct (sqlite_insert env (tick w1) _); tauto.
  - intros insert.
    destruct (chat_endpoint_run (with_store env insert) request w)
      as (sid' & w0' & attempts' & result' & w1' & ok' & w'' & E0' & E1' & _ & E'
          & _).
    fold q agent model in E1', E'.
    rewrite session_id_of_with_store, E0 in E0'; injection E0' as <- <-.
    rewrite call_llm_with_store, E1 in E1'; injection E1' as <- <-.
    now rewrite E'.
Qed.

Lemma chat_endpoint_appends_one_record_witness :
  exists resp w' row,
    chat_endpoint env_all_down (ask "What is 2+2?") empty_world = (Ok resp, w') /\
    sessions w' = [row] /\
    SessionRow.response row = "Z.ai error: timed out" /\
    ChatResponse.response resp = "Z.ai error: timed out".
Proof.
  destruct (chat_endpoint_appends_one_record env_all_down (ask "What is 2+2?")
              empty_world)
    as (sid & w0 & attempts & result & w1 & resp & w' & E0 & E1 & E & Hresp & X
        & _ & Hall & Hstore & _).
  assert (Ha : attempts = exchanges w') by (rewrite X; reflexivity).
  vm_compute in E0; injection E0 as <- <-.
  vm_compute in E1; injection E1 as <- <-.
  cbn [sqlite_insert env_all_down] in Hstore.
  exists resp, w', (session_row "sess_0_deadbeef" "What is 2+2?" "task"
                      "gemini-flash-8b"
                      (failure_result "Z.ai error: timed out")).
  split; [exact E|].
  split; [exact Hstore|].
  split; [reflexivity|].
  rewrite Hresp; reflexivity.
Defined.

(** C8. Classification and selection depend on the query text only: two
    runs of [chat_endpoint] on the same query, in any two surroundings, from
    any two worlds and with any two session identifiers, report the same
    category and the same model, namely [detect_agent query] and
    [choose_model query (detect_agent query)]. *)
Theorem routing_is_deterministic (env1 env2 : Env) (w1 w2 : World)
    (query : string) (sid1 sid2 : option string) :
  exists r1 w1' r2 w2',
    chat_endpoint env1 (ChatRequest.make query sid1) w1 = (Ok r1, w1') /\
    chat_endpoint env2 (ChatRequest.make query sid2) w2 = (Ok r2, w2') /\
    ChatResponse.agent_used r1 = detect_agent query /\
    ChatResponse.agent_used r2 = detect_agent query /\
    ChatResponse.model r1 = choose_model query (detect_agent query) /\
    ChatResponse.model r2 = choose_model query (detect_agent query).
Proof.
  destruct (chat_endpoint_run env1 (ChatRequest.make query sid1) w1)
    as (? & ? & ? & result1 & ? & ? & w1' & _ & _ & _ & E1 & _).
  destruct (chat_endpoint_run env2 (ChatRequest.make query sid2) w2)
    as (? & ? & ? & result2 & ? & ? & w2' & _ & _ & _ & E2 & _).
  cbn [ChatRequest.query] in E1, E2.
  eexists _, w1', _, w2'.
  split; [exact E1|]. split; [exact E2|].
  repeat apply conj; reflexivity.
Qed.



Example stream_thirteen_words :
  emitted (snd (stream_chat env_thirteen (ask "Tell me more") empty_world)) =
  [start "task"; delta "a b c d e"; delta "f g h i j"; delta "k l m";
   complete "gemini-flash-8b" 0.9%Q].
Proof. vm_compute; reflexivity. Qed.

End Dispatch.

(* ================================================================== *)
(** * More on the classifier and the selector *)
(* ================================================================== *)

Section Routing.

Local Open Scope string_scope.
Local Open Scope nat_scope.

Lemma occurs_ci_extend (k pre q suf : string) :
  occurs_ci k q -> occurs_ci k (pre ++ q ++ suf).
Proof.
  intros (a & mid & b & -> & H).
  exists (pre ++ a), mid, (b ++ suf); split; [|exact H].
  now rewrite !append_assoc.
Qed.

Lemma any_keyword_extend (keywords : list string) (pre q suf : string) :
  any_keyword_in keywords (PyStr.lower q) = true ->
  any_keyword_in keywords (PyStr.lower (pre ++ q ++ suf)) = true.
Proof.
  rewrite !any_keyword_in_iff; intros (k & Hin & H).
  exists k; split; [exact Hin | now apply occurs_ci_extend].
Qed.

(** X1. The classifier, both ways: [code] exactly when a code keyword occurs
    in the query, [research] exactly when no code keyword but a research
    keyword occurs, [task] exactly when neither occurs.  The task keywords
    have no influence on the result. *)
Theorem detect_agent_characterization (query : string) :
  (detect_agent query = "code" <->
   exists k, In k code_keywords /\ occurs_ci k query) /\
  (detect_agent query = "research" <->
   (forall k, In k code_keywords -> ~ occurs_ci k query) /\
   exists k, In k research_keywords /\ occurs_ci k query) /\
  (detect_agent query = "task" <->
   forall k, In k (code_keywords ++ research_keywords) -> ~ occurs_ci k query).
Proof.
  unfold detect_agent.
  pose proof (any_keyword_in_iff code_keywords query) as Hc.
  pose proof (any_keyword_in_iff research_keywords query) as Hr.
  destruct (any_keyword_in code_keywords _) eqn:Ec;
    [|destruct (any_keyword_in research_keywords _) eqn:Er].
  - assert (C : exists k, In k code_keywords /\ occurs_ci k query) by now apply Hc.
    repeat apply conj; try discriminate; auto.
    + intros [H _]; destruct C as (k & Hin & Hk); now destruct (H k Hin).
    + intros H; destruct C as (k & Hin & Hk).
      destruct (H k); [apply in_or_app; auto | exact Hk].
  - assert (C : forall k, In k code_keywords -> ~ occurs_ci k query).
    { intros k Hin Hk; assert (false = true) by (apply Hc; eauto); discriminate. }
    assert (R : exists k, In k research_keywords /\ occurs_ci k query) by now apply Hr.
    repeat apply conj; try discriminate; auto.
    + intros (k & Hin & Hk); now destruct (C k Hin).
    + intros H; destruct R as (k & Hin & Hk).
      destruct (H k); [apply in_or_app; auto | exact Hk].
  - assert (C : forall k, In k (code_keywords ++ research_keywords) -> ~ occurs_ci k query).
    { intros k Hin Hk; apply in_app_or in Hin as [Hin|Hin].
      - assert (false = true) by (apply Hc; eauto); discriminate.
      - assert (false = true) by (apply Hr; eauto); discriminate. }
    assert (T : (if any_keyword_in task_keywords (PyStr.lower query)
                 then "task" else "task") = "task")
      by now destruct (any_keyword_in task_keywords _).
    rewrite T; repeat apply conj; try discriminate; auto.
    + intros (k & Hin & Hk); destruct (C k); [apply in_or_app; auto | exact Hk].
    + intros [_ (k & Hin & Hk)]; destruct (C k); [apply in_or_app; auto | exact Hk].
Qed.

(** X2. Putting text around a query never lowers its class: a [code] query
    stays [code], and a [research] query becomes [code] or stays
    [research]. *)
Theorem detect_agent_extension (pre query suf : string) :
  (detect_agent query = "code" -> detect_agent (pre ++ query ++ suf) = "code") /\
  (detect_agent query = "research" ->
   detect_agent (pre ++ query ++ suf) = "code" \/
   detect_agent (pre ++ query ++ suf) = "research").
Proof.
  unfold detect_agent; split.
  - destruct (any_keyword_in code_keywords (PyStr.lower query)) eqn:Ec.
    + intros _; now rewrite (any_keyword_extend _ pre _ suf Ec).
    + destruct (any_keyword_in research_keywords (PyStr.lower query));
        [discriminate|].
      destruct (any_keyword_in task_keywords (PyStr.lower query)); discriminate.
  - destruct (any_keyword_in code_keywords (PyStr.lower query)); [discriminate|].
    destruct (any_keyword_in research_keywords (PyStr.lower query)) eqn:Er.
    + intros _; rewrite (any_keyword_extend _ pre _ suf Er).
      destruct (any_keyword_in code_keywords _); auto.
    + destruct (any_keyword_in task_keywords (PyStr.lower query)); discriminate.
Qed.

Lemma detect_agent_extension_witness :
  detect_agent ("Please " ++ "debug this" ++ " and explain the data") = "code" /\
  (detect_agent ("Please " ++ "explain this" ++ " to me") = "code" \/
   detect_agent ("Please " ++ "explain this" ++ " to me") = "research").
Proof.
  split.
  - apply (proj1 (detect_agent_extension "Please " "debug this" " and explain the data")).
    reflexivity.
  - apply (proj2 (detect_agent_extension "Please " "explain this" " to me")).
    reflexivity.
Defined.


End Routing.

(* ================================================================== *)
(** * More on the dispatcher, the endpoints and the stream *)
(* ================================================================== *)

Section DispatchLog.

Local Open Scope string_scope.
Local Open Scope nat_scope.

Section Logs.
Variable env : Env.

Lemma call_gemini_flash_log (query model : string) (w : World) :
  exists x r w',
    call_gemini_flash env query model w = (Ok r, w') /\
    one_attempt (GenerateContent (gemini_model_name model) query) w x r w' /\
    paired x /\
    stdout w' = (stdout w ++ error_line x)%list.
Proof.
  unfold call_gemini_flash, try_except, bind, now, generate_content, eval,
    print, ret, one_attempt, normalizes, failed, error_line, error_of, answer_of,
    paired, gemini_model_name.
  simpl.
  destruct (genai_generate_content env (S (tick w)) _ query)
    as [[[text|msg]]|msg] eqn:E.
  - eexists (_, GeminiReply (GeminiResponse.make (Returns text))), _, _; simpl.
    rewrite app_nil_r; repeat apply conj; reflexivity.
  - eexists (_, GeminiReply (GeminiResponse.make (Raises msg))), _, _; simpl.
    repeat apply conj; reflexivity.
  - eexists (_, Failure msg), _, _; simpl.
    repeat apply conj; reflexivity.
Qed.

Lemma call_zai_direct_log (query : string) (w : World) :
  exists x r w',
    call_zai_direct env query w = (Ok r, w') /\
    one_attempt (PostChatCompletions query) w x r w' /\
    paired x /\
    stdout w' = (stdout w ++ error_line x)%list.
Proof.
  unfold call_zai_direct, try_except, bind, now, post_chat_completions, eval,
    print, ret, one_attempt, normalizes, failed, error_line, error_of, answer_of,
    paired.
  simpl.
  destruct (zai_chat_completions env (S (tick w)) _ query)
    as [[[content|msg] usage]|msg] eqn:E.
  - eexists (_, ZaiReply (ZaiJson.make (Returns content) usage)), _, _; simpl.
    rewrite app_nil_r; repeat apply conj; reflexivity.
  - eexists (_, ZaiReply (ZaiJson.make (Raises msg) usage)), _, _; simpl.
    repeat apply conj; reflexivity.
  - eexists (_, Failure msg), _, _; simpl.
    repeat apply conj; reflexivity.
Qed.

Lemma primary_log (model full_query : string) (w : World) :
  exists x r w',
    (if PyStr.startswith "gemini" model then call_gemini_flash env full_query model
     else if String.eqb model "zai-large" then call_zai_direct env full_query
     else call_gemini_flash env full_query "gemini-flash") w = (Ok r, w') /\
    one_attempt (primary_request model full_query) w x r w' /\
    paired x /\
    stdout w' = (stdout w ++ error_line x)%list.
Proof.
  unfold primary_request.
  destruct (PyStr.startswith "gemini" model).
  - apply call_gemini_flash_log.
  - destruct (String.eqb model "zai-large").
    + apply call_zai_direct_log.
    + apply (call_gemini_flash_log full_query "gemini-flash").
Qed.

Lemma call_llm_trace (model query agent : string) (w : World) :
  exists attempts r w',
    call_llm env model query agent w = (Ok r, w') /\
    exchanges w' = (exchanges w ++ attempts)%list /\
    fallback_chain (Z_API_KEY env) model (agent_prompts_get agent ++ query) attempts /\
    (forall d, normalizes (last attempts d) r /\
               CallResult.success r = negb (failed (last attempts d))) /\
    Forall paired attempts /\
    stdout w' = (stdout w ++ dispatch_log model attempts)%list.
Proof.
  unfold call_llm; cbv zeta.
  set (fq := agent_prompts_get agent ++ query).
  destruct (primary_log model fq w)
    as (x1 & r1 & w1 & E1 & (Hreq1 & N1 & S1 & X1 & D1 & Y1) & P1 & L1).
  unfold bind at 1; rewrite E1.
  rewrite S1, negb_involutive.
  destruct (failed x1) eqn:F1.
  2:{ exists [x1], r1, w1.
      split; [reflexivity|]. split; [exact X1|]. split; [|split; [|split]].
      - exists x1, [], []; repeat apply conj; auto.
        + now rewrite F1.
        + simpl; now rewrite F1.
      - intros d; simpl; now rewrite F1.
      - repeat constructor; assumption.
      - unfold dispatch_log; rewrite F1; simpl; now rewrite app_nil_r. }
  unfold bind at 1, print at 1.
  set (w1p := mkWorld _ _ _ _ _).
  assert (Xp : exchanges w1p = (exchanges w ++ [x1])%list) by exact X1.
  assert (Lp : stdout w1p =
               (stdout w ++ error_line x1
                ++ [("Primary model " ++ model ++ " failed, trying fallback...")%string])%list).
  { unfold w1p; cbn [stdout]; rewrite L1; now rewrite <- app_assoc. }
  clearbody w1p.
  destruct (String.eqb model "gemini-flash") eqn:Em; simpl negb; cbv iota.
  - unfold bind at 1, ret at 1.
    rewrite S1; simpl negb; rewrite andb_true_l.
    destruct (PyStr.truthy (Z_API_KEY env)) eqn:K.
    + destruct (call_zai_direct_log fq w1p)
        as (x3 & r3 & w3 & E3 & (Hreq3 & N3 & S3 & X3 & D3 & Y3) & P3 & L3).
      exists [x1; x3], r3, w3.
      split; [exact E3|]. split; [|split; [|split; [|split]]].
      * rewrite X3, Xp, <- app_assoc; reflexivity.
      * exists x1, [], [x3]; repeat apply conj; auto.
        -- now rewrite F1, Em.
        -- simpl; rewrite F1, K; simpl; eauto.
      * intros d; simpl; auto.
      * repeat constructor; assumption.
      * unfold dispatch_log; rewrite F1, L3, Lp; simpl.
        rewrite ?app_nil_r; repeat rewrite <- app_assoc; reflexivity.
    + exists [x1], r1, w1p.
      split; [reflexivity|]. split; [exact Xp|]. split; [|split; [|split]].
      * exists x1, [], []; repeat apply conj; auto.
        -- now rewrite F1, Em.
        -- simpl; now rewrite F1, K.
      * intros d; simpl; now rewrite F1.
      * repeat constructor; assumption.
      * unfold dispatch_log; rewrite F1, Lp; simpl.
        rewrite ?app_nil_r; repeat rewrite <- app_assoc; reflexivity.
  - destruct (call_gemini_flash_log fq "gemini-flash" w1p)
      as (x2 & r2 & w2 & E2 & (Hreq2 & N2 & S2 & X2 & D2 & Y2) & P2 & L2).
    unfold bind at 1; rewrite E2, S2, negb_involutive.
    destruct (failed x2 && PyStr.truthy (Z_API_KEY env)) eqn:G.
    + destruct (call_zai_direct_log fq w2)
        as (x3 & r3 & w3 & E3 & (Hreq3 & N3 & S3 & X3 & D3 & Y3) & P3 & L3).
      exists [x1; x2; x3], r3, w3.
      split; [exact E3|]. split; [|split; [|split; [|split]]].
      * rewrite X3, X2, Xp, <- !app_assoc; reflexivity.
      * exists x1, [x2], [x3]; repeat apply conj; auto.
        -- rewrite F1, Em; simpl; eauto.
        -- simpl; rewrite F1, andb_true_r; simpl; rewrite G; eauto.
      * intros d; simpl; auto.
      * repeat constructor; assumption.
      * unfold dispatch_log; rewrite F1, L3, L2, Lp; simpl.
        rewrite ?app_nil_r; repeat rewrite <- app_assoc; reflexivity.
    + exists [x1; x2], r2, w2.
      split; [reflexivity|]. split; [|split; [|split; [|split]]].
      * rewrite X2, Xp, <- !app_assoc; reflexivity.
      * exists x1, [x2], []; repeat apply conj; auto.
        -- rewrite F1, Em; simpl; eauto.
        -- simpl; rewrite F1, andb_true_r; simpl; now rewrite G.
      * intros d; simpl; auto.
      * repeat constructor; assumption.
      * unfold dispatch_log; rewrite F1, L2, Lp; simpl.
        rewrite ?app_nil_r; repeat rewrite <- app_assoc; reflexivity.
Qed.

End Logs.

Section DispatchExtras.

Lemma chain_prompts key model fq attempts :
  fallback_chain key model fq attempts ->
  Forall (fun x => prompt_of (fst x) = fq) attempts.
Proof.
  intros (x1 & s2 & s3 & -> & Hp & H2 & H3).
  constructor.
  - rewrite Hp; unfold primary_request.
    destruct (PyStr.startswith "gemini" model); [reflexivity|].
    destruct (String.eqb model "zai-large"); reflexivity.
  - apply Forall_app; split.
    + destruct (failed x1 && _); [destruct H2 as (x2 & -> & E)|subst s2];
        repeat constructor; now rewrite E.
    + destruct (forallb failed _ && _); [destruct H3 as (x3 & -> & E)|subst s3];
        repeat constructor; now rewrite E.
Qed.

Lemma chain_prefix_failed key model fq attempts :
  fallback_chain key model fq attempts ->
  forallb failed (removelast attempts) = true.
Proof.
  intros (x1 & s2 & s3 & -> & _ & H2 & H3).
  destruct (forallb failed (x1 :: s2) && PyStr.truthy key) eqn:G3.
  - destruct H3 as (x3 & -> & _).
    apply andb_true_iff in G3 as [G3 _].
    change (x1 :: s2 ++ [x3])%list with ((x1 :: s2) ++ [x3])%list.
    now rewrite removelast_last.
  - subst s3; rewrite app_nil_r.
    destruct (failed x1 && negb (String.eqb model "gemini-flash")) eqn:G2.
    + destruct H2 as (x2 & -> & _).
      apply andb_true_iff in G2 as [G2 _].
      simpl; now rewrite G2.
    + subst s2; reflexivity.
Qed.

Lemma chain_length key model fq attempts :
  fallback_chain key model fq attempts ->
  (forall x1 rest, attempts = x1 :: rest -> failed x1 = false -> rest = []) /\
  (forallb failed attempts = true ->
   List.length attempts =
   1 + (if String.eqb model "gemini-flash" then 0 else 1)
     + (if PyStr.truthy key then 1 else 0)).
Proof.
  intros (x1 & s2 & s3 & -> & _ & H2 & H3); split.
  - intros y rest E F; injection E as <- <-.
    rewrite F in H2; simpl in H2; subst s2.
    simpl in H3; rewrite F in H3; simpl in H3; now subst s3.
  - intros Hall.
    simpl in Hall; apply andb_true_iff in Hall as [F1 Hall].
    rewrite forallb_app in Hall; apply andb_true_iff in Hall as [F2 F3].
    simpl in H3; rewrite F1, F2 in H3; simpl in H3.
    rewrite F1 in H2; simpl in H2.
    destruct (String.eqb model "gemini-flash"); simpl in H2;
      [subst s2|destruct H2 as (x2 & -> & _)];
      (destruct (PyStr.truthy key); [destruct H3 as (x3 & -> & _)|subst s3]);
      reflexivity.
Qed.

End DispatchExtras.

(** X4. Every attempt of one dispatch carries the same prompt: the
    instruction of the category followed by the raw query.  For a category
    outside [code], [research], [task] the instruction is empty and the raw
    query is sent; for a category [detect_agent] returns the instruction is
    never empty and ends in a blank line. *)
Theorem every_attempt_sends_the_same_prompt (env : Env)
    (model query agent : string) (w : World) :
  exists attempts r w',
    call_llm env model query agent w = (Ok r, w') /\
    exchanges w' = (exchanges w ++ attempts)%list /\
    Forall (fun x => prompt_of (fst x) = agent_prompts_get agent ++ query) attempts /\
    (agent <> "code" -> agent <> "research" -> agent <> "task" ->
     Forall (fun x => prompt_of (fst x) = query) attempts) /\
    (forall q, agent = detect_agent q ->
       exists instruction,
         instruction <> "" /\
         agent_prompts_get agent = instruction ++ nl ++ nl).
Proof.
  destruct (call_llm_trace env model query agent w)
    as (attempts & r & w' & E & X & Hchain & _).
  exists attempts, r, w'.
  split; [exact E|]. split; [exact X|].
  pose proof (chain_prompts _ _ _ _ Hchain) as P.
  split; [exact P|]. split.
  - intros Hc Hr Ht; unfold agent_prompts_get in P.
    apply String.eqb_neq in Hc, Hr, Ht; now rewrite Hc, Hr, Ht in P.
  - intros q ->; unfold detect_agent.
    destruct (any_keyword_in code_keywords _);
      [|destruct (any_keyword_in research_keywords _);
        [|destruct (any_keyword_in task_keywords _)]];
      eexists; (split; [|reflexivity]); discriminate.
Qed.

Lemma every_attempt_sends_the_same_prompt_witness :
  Forall (fun x => prompt_of (fst x) = "hello")
    (exchanges (snd (call_llm env_all_down "gemini-flash-8b" "hello" "chat"
                       empty_world))).
Proof.
  destruct (every_attempt_sends_the_same_prompt env_all_down "gemini-flash-8b"
              "hello" "chat" empty_world)
    as (attempts & r & w' & E & X & _ & H & _).
  rewrite E; cbn [snd]; rewrite X; cbn [exchanges empty_world app].
  apply H; discriminate.
Defined.

(** X5. A dispatch stops at the first attempt that answers: every
    attempt but the last failed, the result succeeds exactly when the last
    one answered, its text is then that answer, and the dispatcher touches
    neither the table nor the stream. *)
Theorem dispatch_stops_at_first_success (env : Env)
    (model query agent : string) (w : World) :
  exists attempts r w',
    call_llm env model query agent w = (Ok r, w') /\
    exchanges w' = (exchanges w ++ attempts)%list /\
    forallb failed (removelast attempts) = true /\
    (forall d, CallResult.success r = negb (failed (last attempts d))) /\
    (forall d text, answer_of (last attempts d) = Some text ->
                    CallResult.response r = text) /\
    sessions w' = sessions w /\ emitted w' = emitted w.
Proof.
  destruct (call_llm_run env model query agent w)
    as (attempts & r & w' & E & X & D & Y & Hchain & Hlast).
  exists attempts, r, w'; repeat apply conj; auto.
  - eapply chain_prefix_failed; eauto.
  - intros d; apply Hlast.
  - intros d text Ha; now apply (answered_response (last attempts d)), Hlast.
Qed.

(** X6. A dispatch makes between one and three attempts; exactly one
    when the primary answers; and when it ends in failure, one plus one
    unless the selected model is [gemini-flash], plus one when a Z.ai key is
    configured.  So [gemini-flash] without a Z.ai key has no fallback at
    all. *)
Theorem attempt_count (env : Env) (model query agent : string) (w : World) :
  exists attempts r w',
    call_llm env model query agent w = (Ok r, w') /\
    exchanges w' = (exchanges w ++ attempts)%list /\
    1 <= List.length attempts <= 3 /\
    (forall x1 rest, attempts = x1 :: rest -> failed x1 = false -> rest = []) /\
    (CallResult.success r = false ->
     List.length attempts =
     1 + (if String.eqb model "gemini-flash" then 0 else 1)
       + (if PyStr.truthy (Z_API_KEY env) then 1 else 0)).
Proof.
  destruct (call_llm_run env model query agent w)
    as (attempts & r & w' & E & X & _ & _ & Hchain & Hlast).
  destruct (chain_nonempty _ _ _ _ Hchain) as [Hne Hlen].
  destruct (chain_length _ _ _ _ Hchain) as [H1 Hall].
  exists attempts, r, w'; repeat apply conj; auto.
  - destruct attempts; [congruence | simpl; lia].
  - intros S; apply Hall.
    destruct (Hlast (GenerateContent "" "", Failure "")) as [_ S'].
    rewrite S' in S; apply negb_false_iff in S.
    eapply chain_all_failed; eauto.
Qed.

Lemma attempt_count_witness :
  List.length (exchanges (snd (call_llm env_all_down "gemini-flash" "hello" "task"
                                 empty_world))) = 2.
Proof.
  destruct (attempt_count env_all_down "gemini-flash" "hello" "task" empty_world)
    as (attempts & r & w' & E & X & _ & _ & H).
  rewrite E; cbn [snd]; rewrite X; cbn [exchanges empty_world app].
  rewrite H; [reflexivity|].
  vm_compute in E; injection E as <- _; reflexivity.
Defined.


(** X8. What a dispatch prints: one error line for every failed
    attempt, in order, and after a failed primary the announcement of the
    fallback.  The text of a failure result is one of the printed lines, and
    nothing is printed when the primary answers. *)
Theorem every_failure_is_printed (env : Env) (model query agent : string)
    (w : World) :
  exists attempts r w',
    call_llm env model query agent w = (Ok r, w') /\
    exchanges w' = (exchanges w ++ attempts)%list /\
    stdout w' = (stdout w ++ dispatch_log model attempts)%list /\
    (CallResult.success r = false ->
     In (CallResult.response r) (dispatch_log model attempts)) /\
    (forall x1 rest, attempts = x1 :: rest -> failed x1 = false ->
     stdout w' = stdout w).
Proof.
  destruct (call_llm_trace env model query agent w)
    as (attempts & r & w' & E & X & Hchain & Hlast & _ & L).
  exists attempts, r, w'; repeat apply conj; auto.
  - intros S.
    destruct (chain_nonempty _ _ _ _ Hchain) as [Hne _].
    destruct (exists_last Hne) as (l & a & ->).
    destruct (Hlast a) as [N S']; rewrite last_last in N, S'.
    rewrite S' in S; apply negb_false_iff in S.
    assert (Ea : error_line a = [CallResult.response r]).
    { unfold error_line, normalizes, failed in *.
      destruct (error_of a); [now subst r | discriminate]. }
    unfold dispatch_log.
    destruct l as [|x1 l]; cbn [app].
    + rewrite Ea; left; reflexivity.
    + rewrite flat_map_app; cbn [flat_map]; rewrite Ea.
      apply in_or_app; right; apply in_or_app; right.
      apply in_or_app; right; left; reflexivity.
  - intros x1 rest Ha F.
    destruct (chain_length _ _ _ _ Hchain) as [H1 _].
    rewrite (H1 _ _ Ha F) in Ha; subst attempts.
    rewrite L; unfold dispatch_log, error_line, failed in *.
    destruct (error_of x1); [discriminate|].
    simpl; now rewrite app_nil_r.
Qed.



Section Blind.

Variable env : Env.

Lemma blind_ret {A} (a : A) : stream_blind (ret a).
Proof. intros ev w; reflexivity. Qed.

Lemma blind_eval {A} (o : Outcome A) : stream_blind (eval o).
Proof. intros ev w; destruct o; reflexivity. Qed.

Lemma blind_bind {A B} (m : M A) (k : A -> M B) :
  stream_blind m -> (forall a, stream_blind (k a)) -> stream_blind (bind m k).
Proof.
  intros Hm Hk ev w; unfold bind; rewrite Hm.
  destruct (m w) as [[a|e] w1]; cbn [fst snd]; [apply Hk | reflexivity].
Qed.

Lemma blind_try_except {A} (body : M A) (handler : string -> M A) :
  stream_blind body -> (forall e, stream_blind (handler e)) ->
  stream_blind (try_except body handler).
Proof.
  intros Hb Hh ev w; unfold try_except; rewrite Hb.
  destruct (body w) as [[a|e] w1]; cbn [fst snd]; [reflexivity | apply Hh].
Qed.

Lemma blind_print (line : string) : stream_blind (print line).
Proof. intros ev w; reflexivity. Qed.

Lemma blind_now : stream_blind (now env).
Proof. intros ev w; reflexivity. Qed.

Lemma blind_new_session_id : stream_blind (new_session_id env).
Proof. intros ev w; reflexivity. Qed.

Lemma blind_generate_content (model_name prompt : string) :
  stream_blind (generate_content env model_name prompt).
Proof.
  intros ev w; unfold generate_content; cbn [tick with_emitted].
  destruct (genai_generate_content env (tick w) model_name prompt); reflexivity.
Qed.

Lemma blind_post_chat_completions (prompt : string) :
  stream_blind (post_chat_completions env prompt).
Proof.
  intros ev w; unfold post_chat_completions; cbn [tick with_emitted].
  destruct (zai_chat_completions env (tick w) _ prompt); reflexivity.
Qed.

Lemma blind_insert_session (row : SessionRow.t) :
  stream_blind (insert_session env row).
Proof.
  intros ev w; unfold insert_session; cbn [tick with_emitted].
  destruct (sqlite_insert env (tick w) row); reflexivity.
Qed.

Create HintDb blind.

#[local] Hint Resolve blind_ret blind_eval blind_print blind_now blind_new_session_id
  blind_generate_content blind_post_chat_completions blind_insert_session : blind.

Lemma blind_call_gemini_flash (query model : string) :
  stream_blind (call_gemini_flash env query model).
Proof. unfold call_gemini_flash;
    repeat first
    [ apply blind_try_except; [|intros ?]
    | apply blind_bind; [|intros ?]
    | solve [auto with blind]
    | match goal with
      | |- stream_blind (if ?b then _ else _) => destruct b
      end ]. Qed.

Lemma blind_call_zai_direct (query : string) :
  stream_blind (call_zai_direct env query).
Proof. unfold call_zai_direct;
    repeat first
    [ apply blind_try_except; [|intros ?]
    | apply blind_bind; [|intros ?]
    | solve [auto with blind]
    | match goal with
      | |- stream_blind (if ?b then _ else _) => destruct b
      end ]. Qed.

#[local] Hint Resolve blind_call_gemini_flash blind_call_zai_direct : blind.

Lemma blind_call_llm (model query agent : string) :
  stream_blind (call_llm env model query agent).
Proof. unfold call_llm;
    repeat first
    [ apply blind_try_except; [|intros ?]
    | apply blind_bind; [|intros ?]
    | solve [auto with blind]
    | match goal with
      | |- stream_blind (if ?b then _ else _) => destruct b
      end ]. Qed.

Lemma blind_save_session (sid q : string) (r : CallResult.t) (agent model : string) :
  stream_blind (save_session env sid q r agent model).
Proof. unfold save_session;
    repeat first
    [ apply blind_try_except; [|intros ?]
    | apply blind_bind; [|intros ?]
    | solve [auto with blind]
    | match goal with
      | |- stream_blind (if ?b then _ else _) => destruct b
      end ]. Qed.

Lemma blind_session_id_of (request : ChatRequest.t) :
  stream_blind (session_id_of env request).
Proof.
  unfold session_id_of.
  destruct (ChatRequest.session_id request) as [[|c s]|]; auto with blind.
Qed.

End Blind.

Lemma with_emitted_same (w : World) : with_emitted (emitted w) w = w.
Proof. now destruct w. Qed.

Lemma session_id_of_value (env : Env) (request : ChatRequest.t) (w : World) :
  exists w0,
    session_id_of env request w = (Ok (given_session_id env request w), w0) /\
    exchanges w0 = exchanges w /\ sessions w0 = sessions w /\
    emitted w0 = emitted w /\ stdout w0 = stdout w.
Proof.
  unfold session_id_of, given_session_id, new_session_id, ret.
  destruct (ChatRequest.session_id request) as [[|c s]|];
    eexists; repeat apply conj; reflexivity.
Qed.

(** The run of the generator in terms of the run of the dispatcher and of
    the store. *)
Lemma generate_stream_world (env : Env) (request : ChatRequest.t)
    (sid : string) (w : World) :
  let q := ChatRequest.query request in
  let agent := detect_agent q in
  let model := choose_model q agent in
  forall result w1 ok w',
    call_llm env model q agent w = (Ok result, w1) ->
    save_session env sid q result agent model w1 = (Ok ok, w') ->
    let words := PyStr.split (CallResult.response result) in
    generate_stream env request sid w =
    (Ok tt,
     with_emitted
       (emitted w ++ [start agent]
        ++ map (fun i => delta (PyStr.join " " (PyStr.slice words i (i + 5))))
               (PyStr.range 0 (List.length words) 5)
        ++ [complete model (CallResult.confidence result)])%list
       w').
Proof.
  intros q agent model result w1 ok w' E1 E2 words.
  unfold generate_stream, try_except; fold q agent model.
  unfold bind at 1, yield at 1.
  change (mkWorld (tick w) (exchanges w) (stdout w) (sessions w)
            (emitted w ++ [start agent]))
    with (with_emitted (emitted w ++ [start agent]) w).
  unfold bind at 1.
  rewrite (blind_call_llm env model q agent), E1; cbn [fst snd].
  fold words.
  unfold bind at 1; rewrite for_each_yield.
  unfold bind at 1, yield at 1.
  cbn [tick exchanges stdout sessions emitted with_emitted].
  match goal with
  | |- context [bind _ _ (mkWorld _ _ _ _ ?ev)] =>
      change (mkWorld (tick w1) (exchanges w1) (stdout w1) (sessions w1) ev)
        with (with_emitted ev w1)
  end.
  unfold bind at 1.
  rewrite (blind_save_session env sid q result agent model), E2; cbn [fst snd].
  unfold ret; repeat rewrite <- app_assoc; reflexivity.
Qed.

Section Words.










End Words.



(** X11. The streaming endpoint does what [chat_endpoint] does: from
    the same world it sends the same requests, prints the same lines and
    stores the same row; its events are [start] with the category of the
    response, the [delta]s, and [complete] with the model and the confidence
    of the response.  No [error] event is emitted. *)
Theorem stream_chat_agrees_with_chat (env : Env) (request : ChatRequest.t)
    (w : World) :
  exists resp wc deltas,
    chat_endpoint env request w = (Ok resp, wc) /\
    emitted wc = emitted w /\
    stream_chat env request w =
    (Ok tt,
     with_emitted
       (emitted w ++ start (ChatResponse.agent_used resp) :: map delta deltas
        ++ [complete (ChatResponse.model resp) (ChatResponse.confidence resp)])%list
       wc).
Proof.
  destruct (session_id_of_value env request w) as (w0 & E0 & _ & _ & Y0 & _).
  set (q := ChatRequest.query request).
  set (agent := detect_agent q).
  set (model := choose_model q agent).
  destruct (call_llm_run env model q agent w0)
    as (attempts & result & w1 & E1 & _ & _ & Y1 & _).
  destruct (save_session_run env (given_session_id env request w) q result agent
              model w1)
    as (ok & w' & E2 & _ & Y2 & _).
  exists (response_of agent model result), w',
    (map (fun i => PyStr.join " "
                     (PyStr.slice (PyStr.split (CallResult.response result)) i (i + 5)))
         (PyStr.range 0 (List.length (PyStr.split (CallResult.response result))) 5)).
  repeat apply conj.
  - unfold chat_endpoint; fold q agent model.
    unfold bind; rewrite E0, E1, E2; reflexivity.
  - congruence.
  - unfold stream_chat, bind; rewrite E0.
    pose proof (generate_stream_world env request (given_session_id env request w)
                  w0 result w1 ok w' E1 E2) as E.
    cbv zeta in E; fold q agent model in E.
    rewrite E, Y0, map_map; reflexivity.
Qed.

(** X9. The row [chat_endpoint] appends carries the fields of the
    response it returns, the query, and the session identifier of the
    caller when that is a non-empty string; for a missing or an empty
    identifier a fresh one is generated. *)
Theorem stored_row_mirrors_response (env : Env) (request : ChatRequest.t)
    (w : World) :
  exists resp w',
    chat_endpoint env request w = (Ok resp, w') /\
    (sessions w' = sessions w \/
     sessions w' =
       (sessions w
        ++ [SessionRow.make (given_session_id env request w)
              (ChatRequest.query request)
              (ChatResponse.response resp) (ChatResponse.agent_used resp)
              (ChatResponse.model resp) (ChatResponse.confidence resp)
              (ChatResponse.processing_time resp)
              (ChatResponse.token_count resp)])%list) /\
    (forall c s, ChatRequest.session_id request = Some (String c s) ->
                 given_session_id env request w = String c s) /\
    (ChatRequest.session_id request = None \/
     ChatRequest.session_id request = Some "" ->
     given_session_id env request w = fresh_session_id env (tick w)).
Proof.
  destruct (session_id_of_value env request w) as (w0 & E0 & _ & D0 & _).
  set (q := ChatRequest.query request).
  set (agent := detect_agent q).
  set (model := choose_model q agent).
  destruct (call_llm_run env model q agent w0)
    as (attempts & result & w1 & E1 & _ & D1 & _).
  destruct (save_session_run env (given_session_id env request w) q result agent
              model w1)
    as (ok & w' & E2 & _ & _ & Hstore).
  exists (response_of agent model result), w'.
  split; [|split; [|split]].
  - unfold chat_endpoint; fold q agent model.
    unfold bind; rewrite E0, E1, E2; reflexivity.
  - destruct (sqlite_insert env (tick w1) _);
      [right | left]; destruct Hstore as (_ & -> & _); [|congruence].
    rewrite D1, D0; reflexivity.
  - intros c s H; unfold given_session_id; now rewrite H.
  - intros [H|H]; unfold given_session_id; now rewrite H.
Qed.

Lemma stored_row_mirrors_response_witness :
  given_session_id env_flash_only (ChatRequest.make "hi" (Some "abc")) empty_world
  = "abc" /\
  given_session_id env_flash_only (ChatRequest.make "hi" (Some "")) empty_world
  = "sess_0_deadbeef".
Proof.
  split.
  - destruct (stored_row_mirrors_response env_flash_only
                (ChatRequest.make "hi" (Some "abc")) empty_world)
      as (_ & _ & _ & _ & H & _).
    exact (H _ _ eq_refl).
  - destruct (stored_row_mirrors_response env_flash_only
                (ChatRequest.make "hi" (Some "")) empty_world)
      as (_ & _ & _ & _ & _ & H).
    exact (H (or_intror eq_refl)).
Defined.



End DispatchLog.

(* ================================================================== *)
(** * Status endpoints and the read side of the store *)
(* ================================================================== *)

Section Store.

Local Open Scope string_scope.
Local Open Scope nat_scope.

Section Grouping.

Variable R : Type.
Variable key : R -> string.

Lemma group_keys_nodup (rows : list R) : NoDup (group_keys key rows).
Proof. apply NoDup_nodup. Qed.

Lemma group_keys_in (rows : list R) (k : string) :
  In k (group_keys key rows) <-> exists row, In row rows /\ key row = k.
Proof.
  unfold group_keys; rewrite nodup_In, in_map_iff.
  split; intros (row & H1 & H2); exists row; auto.
Qed.

Lemma group_of_app (k : string) (a b : list R) :
  group_of key k (a ++ b) = (group_of key k a ++ group_of key k b)%list.
Proof. apply filter_app. Qed.

Lemma group_of_nonempty (k : string) (rows : list R) :
  In k (group_keys key rows) -> 1 <= List.length (group_of key k rows).
Proof.
  rewrite group_keys_in; intros (row & Hin & Hk).
  assert (In row (group_of key k rows)).
  { apply filter_In; split; [exact Hin | now apply String.eqb_eq]. }
  destruct (group_of key k rows); [contradiction | simpl; lia].
Qed.

Lemma indicator_sum (x : string) (keys : list string) :
  NoDup keys -> In x keys ->
  list_sum (map (fun k => if String.eqb x k then 1 else 0) keys) = 1.
Proof.
  induction 1 as [|k keys Hk Hnd IH]; intros Hin; [contradiction|].
  simpl; destruct (String.eqb x k) eqn:E.
  - apply String.eqb_eq in E; subst k.
    replace (list_sum _) with 0; [reflexivity|].
    clear -Hk; induction keys as [|k keys IH]; [reflexivity|].
    simpl; destruct (String.eqb x k) eqn:E.
    + apply String.eqb_eq in E; subst; destruct Hk; now left.
    + apply IH; intros H; apply Hk; now right.
  - apply String.eqb_neq in E; destruct Hin as [Hin|Hin]; [congruence|].
    now apply IH.
Qed.

(** Every row falls in exactly one group. *)
Lemma groups_partition (keys : list string) (rows : list R) :
  NoDup keys -> (forall row, In row rows -> In (key row) keys) ->
  list_sum (map (fun k => List.length (group_of key k rows)) keys) =
  List.length rows.
Proof.
  intros Hnd; induction rows as [|row rows IH]; intros Hall.
  - simpl; induction keys; [reflexivity|].
    simpl; apply IHkeys; now inversion Hnd.
  - change (List.length (row :: rows)) with (1 + List.length rows).
    rewrite <- (indicator_sum (key row) keys Hnd) by (apply Hall; now left).
    rewrite <- IH by (intros; apply Hall; now right).
    clear Hnd Hall IH; induction keys as [|k keys IHk]; [reflexivity|].
    unfold list_sum in *; cbn [map fold_right]; rewrite IHk.
    unfold group_of at 1; cbn [filter].
    destruct (String.eqb (key row) k); cbn [List.length];
      fold (group_of key k rows); lia.
Qed.

Lemma dict_get_groups {V} (stat : string -> V) (keys : list string) (k : string) :
  dict_get k (map (fun k' => (k', stat k')) keys) =
  if in_dec string_dec k keys then Some (stat k) else None.
Proof.
  induction keys as [|k' keys IH]; [reflexivity|].
  cbn [map dict_get]; destruct (String.eqb k' k) eqn:E.
  - apply String.eqb_eq in E; subst.
    destruct (in_dec string_dec k (k :: keys)) as [|n]; [reflexivity|].
    destruct n; now left.
  - rewrite IH; apply String.eqb_neq in E.
    destruct (in_dec string_dec k keys), (in_dec string_dec k (k' :: keys));
      try reflexivity.
    + destruct n; now right.
    + destruct i as [|]; [congruence | contradiction].
Qed.

End Grouping.

Lemma select_run {A} (exec : nat -> Outcome unit)
    (answer : list SessionRow.t -> A) (w : World) :
  select exec answer w =
  match exec (tick w) with
  | Returns _ => (Ok (answer (sessions w)), advance w)
  | Raises msg => (Raise msg, advance w)
  end.
Proof. reflexivity. Qed.






Lemma group_of_absent {R} (key : R -> string) (k : string) (rows : list R) :
  ~ In k (group_keys key rows) -> group_of key k rows = [].
Proof.
  intros H; unfold group_of.
  induction rows as [|row rows IH]; [reflexivity|].
  cbn [filter]; destruct (String.eqb (key row) k) eqn:E.
  - apply String.eqb_eq in E; destruct H; apply group_keys_in.
    exists row; split; [now left | exact E].
  - apply IH; intros Hin; apply H.
    apply group_keys_in in Hin as (r & Hr & Hk); apply group_keys_in.
    exists r; split; [now right | exact Hk].
Qed.

(** The dictionary [get_model_stats] builds from a table. *)
Lemma model_stats_lookup (rows : list SessionRow.t) (m : string) :
  let stats := map (fun row => (ModelStats.model row, row))
                   (map (model_stats_row rows) (group_keys SessionRow.model rows)) in
  usage_of (dict_get m stats) =
    List.length (group_of SessionRow.model m rows) /\
  tokens_of (dict_get m stats) =
    sql_sum (map SessionRow.token_count (group_of SessionRow.model m rows)) /\
  dict_get m stats =
    if in_dec string_dec m (group_keys SessionRow.model rows)
    then Some (model_stats_row rows m) else None.
Proof.
  cbv zeta; rewrite map_map; cbn [ModelStats.model model_stats_row].
  rewrite (dict_get_groups (model_stats_row rows)).
  destruct (in_dec _ _ _) as [i|n]; cbn [usage_of tokens_of];
    repeat apply conj; try reflexivity;
    rewrite (group_of_absent _ _ _ n); reflexivity.
Qed.

Lemma sql_sum_app (a b : list Z) : sql_sum (a ++ b) = (sql_sum a + sql_sum b)%Z.
Proof. unfold sql_sum; induction a; simpl; lia. Qed.

(** X17. A chat whose row the store accepted shows up in the
    statistics under the model that was selected: its usage count grows by
    one and its token total by the token count of the response; the figures
    of every other model stay as they were. *)
Theorem chat_shows_up_in_model_stats (env : Env) (exec : nat -> Outcome unit)
    (request : ChatRequest.t) (w w' wb wa : World) (resp : ChatResponse.t)
    (before after : list (string * ModelStats.t)) :
  chat_endpoint env request w = (Ok resp, w') ->
  sessions w' <> sessions w ->
  exec (tick w) = Returns tt -> get_model_stats exec w = (Ok before, wb) ->
  exec (tick w') = Returns tt -> get_model_stats exec w' = (Ok after, wa) ->
  ChatResponse.model resp =
    choose_model (ChatRequest.query request)
                 (detect_agent (ChatRequest.query request)) /\
  usage_of (dict_get (ChatResponse.model resp) after) =
    usage_of (dict_get (ChatResponse.model resp) before) + 1 /\
  tokens_of (dict_get (ChatResponse.model resp) after) =
    (tokens_of (dict_get (ChatResponse.model resp) before)
     + ChatResponse.token_count resp)%Z /\
  (forall m, m <> ChatResponse.model resp ->
             usage_of (dict_get m after) = usage_of (dict_get m before) /\
             tokens_of (dict_get m after) = tokens_of (dict_get m before)).
Proof.
  intros E Hne Xb Eb Xa Ea.
  destruct (chat_endpoint_run env request w)
    as (sid & w0 & attempts & result & w1 & ok & w2 & _ & _ & _ & E' & _ & _ & _
        & _ & Hstore).
  cbv zeta in E'; rewrite E' in E; injection E as <- <-.
  assert (Hs : sessions w2 =
               (sessions w ++ [session_row sid (ChatRequest.query request)
                  (detect_agent (ChatRequest.query request))
                  (choose_model (ChatRequest.query request)
                     (detect_agent (ChatRequest.query request))) result])%list).
  { cbv zeta in Hstore; destruct (sqlite_insert env (tick w1) _);
      [apply Hstore | destruct Hstore as (_ & Hs & _); congruence]. }
  unfold get_model_stats, try_except, bind in Eb, Ea.
  rewrite select_run, Xb in Eb; rewrite select_run, Xa in Ea.
  unfold ret in Eb, Ea; injection Eb as <- _; injection Ea as <- _.
  rewrite Hs.
  set (rows := sessions w).
  set (model := choose_model _ _).
  set (row := session_row _ _ _ _ _).
  cbn [ChatResponse.model ChatResponse.token_count response_of].
  split; [reflexivity|].
  pose proof (model_stats_lookup (rows ++ [row]) model) as (U1 & T1 & _).
  pose proof (model_stats_lookup rows model) as (U0 & T0 & _).
  cbv zeta in U1, T1, U0, T0.
  rewrite U1, T1, U0, T0, group_of_app, length_app, map_app, sql_sum_app.
  assert (Hg : group_of SessionRow.model model [row] = [row]).
  { unfold group_of, row, session_row; cbn [filter SessionRow.model].
    now rewrite String.eqb_refl. }
  rewrite Hg; repeat apply conj.
  - reflexivity.
  - unfold row, session_row; cbn [map SessionRow.token_count sql_sum fold_right].
    lia.
  - intros m Hm.
    pose proof (model_stats_lookup (rows ++ [row]) m) as (U1' & T1' & _).
    pose proof (model_stats_lookup rows m) as (U0' & T0' & _).
    cbv zeta in U1', T1', U0', T0'.
    rewrite U1', T1', U0', T0', group_of_app.
    assert (Hn : group_of SessionRow.model m [row] = []).
    { unfold group_of, row, session_row; cbn [filter SessionRow.model].
      apply not_eq_sym, String.eqb_neq in Hm; now rewrite Hm. }
    rewrite Hn, app_nil_r; split; reflexivity.
Qed.

Lemma chat_shows_up_in_model_stats_witness :
  exists after wa,
    get_model_stats store_up
      (snd (chat_endpoint env_flash_only (ask "What is 2+2?") empty_world))
    = (Ok after, wa) /\
    usage_of (dict_get "gemini-flash-8b" after) = 1 /\
    usage_of (dict_get "gemini-flash" after) = 0.
Proof.
  eexists _, _; split; [reflexivity|].
  pose proof (chat_shows_up_in_model_stats env_flash_only store_up
                (ask "What is 2+2?") empty_world _ _ _ _ _ _
                eq_refl ltac:(discriminate) eq_refl eq_refl eq_refl eq_refl)
    as (_ & U & _ & O).
  split; [exact U|].
  exact (proj1 (O "gemini-flash" ltac:(discriminate))).
Defined.

Lemma count_sessions_run (exec : nat -> Outcome unit) (w : World) :
  exists n w',
    count_sessions exec w = (Ok n, w') /\
    sessions w' = sessions w /\
    match exec (tick w) with
    | Returns _ => n = List.length (sessions w)
    | Raises msg =>
        n = 0 /\
        stdout w' = (stdout w ++ [("Error counting sessions: " ++ msg)%string])%list
    end.
Proof.
  unfold count_sessions, try_except, bind; rewrite select_run.
  destruct (exec (tick w)) as [[]|msg]; eexists _, _; unfold ret, print;
    repeat apply conj; reflexivity.
Qed.

(** X18. The boolean [save_session] returns tells whether the table
    grew: on a working store [count_sessions] is one more after a save that
    returned true and unchanged after one that returned false.  A failing
    count prints the error and answers 0. *)
Theorem save_session_result_tells_the_count (env : Env)
    (exec : nat -> Outcome unit) (sid q : string) (r : CallResult.t)
    (agent model : string) (w : World) :
  exists ok w1 n0 w0 n1 w2,
    save_session env sid q r agent model w = (Ok ok, w1) /\
    count_sessions exec w = (Ok n0, w0) /\
    count_sessions exec w1 = (Ok n1, w2) /\
    sessions w0 = sessions w /\ sessions w2 = sessions w1 /\
    (exec (tick w) = Returns tt -> exec (tick w1) = Returns tt ->
     n1 = n0 + (if ok then 1 else 0)) /\
    (forall msg, exec (tick w1) = Raises msg ->
       n1 = 0 /\
       stdout w2 = (stdout w1 ++ [("Error counting sessions: " ++ msg)%string])%list).
Proof.
  destruct (save_session_run env sid q r agent model w)
    as (ok & w1 & E & _ & _ & Hstore).
  destruct (count_sessions_run exec w) as (n0 & w0 & E0 & S0 & H0).
  destruct (count_sessions_run exec w1) as (n1 & w2 & E1 & S1 & H1).
  exists ok, w1, n0, w0, n1, w2.
  split; [exact E|]. split; [exact E0|]. split; [exact E1|].
  split; [exact S0|]. split; [exact S1|]. split.
  - intros X0 X1; rewrite X0 in H0; rewrite X1 in H1; subst n0 n1.
    destruct (sqlite_insert env (tick w) _);
      [destruct Hstore as (-> & -> & _) | destruct Hstore as (-> & -> & _)];
      rewrite ?length_app; simpl; lia.
  - intros msg X1; rewrite X1 in H1; exact H1.
Qed.

Lemma save_session_result_tells_the_count_witness :
  exists n w2,
    count_sessions store_up
      (snd (save_session env_all_down "s" "q" (failure_result "x") "task" "m"
              empty_world)) = (Ok n, w2) /\
    n = 1.
Proof.
  destruct (save_session_result_tells_the_count env_all_down store_up "s" "q"
              (failure_result "x") "task" "m" empty_world)
    as (ok & w1 & n0 & w0 & n1 & w2 & E & E0 & E1 & _ & _ & H & _).
  rewrite E; cbn [snd]; exists n1, w2; split; [exact E1|].
  rewrite (H eq_refl eq_refl).
  vm_compute in E, E0; injection E as <- _; injection E0 as <- _; reflexivity.
Defined.

(** X19. [clear_all_sessions] never raises: it returns true and leaves
    an empty table, or returns false, prints the error and leaves the table
    as it was.  After a successful clear the count is 0 and both statistics
    are empty. *)
Theorem clear_all_sessions_empties (exec : nat -> Outcome unit) (w : World) :
  exists ok w',
    clear_all_sessions exec w = (Ok ok, w') /\
    exchanges w' = exchanges w /\ emitted w' = emitted w /\
    match exec (tick w) with
    | Returns _ => ok = true /\ sessions w' = []
    | Raises msg =>
        ok = false /\ sessions w' = sessions w /\
        stdout w' = (stdout w ++ [("Error clearing sessions: " ++ msg)%string])%list
    end /\
    (ok = true ->
     fst (count_sessions exec w') = Ok 0 /\
     fst (get_model_stats exec w') = Ok [] /\
     fst (get_agent_stats exec w') = Ok []).
Proof.
  unfold clear_all_sessions, try_except, bind, delete_all.
  destruct (exec (tick w)) as [[]|msg] eqn:X.
  - eexists _, _; unfold print, ret; cbn [fst snd].
    split; [reflexivity|]. repeat apply conj; try reflexivity.
    intros _.
    unfold count_sessions, get_model_stats, get_agent_stats, try_except, bind;
      rewrite !select_run; cbn [tick sessions].
    destruct (exec (S (tick w))); repeat apply conj; reflexivity.
  - eexists _, _; unfold print, ret; cbn [fst snd].
    split; [reflexivity|]. repeat apply conj; try reflexivity.
    discriminate.
Qed.

Lemma clear_all_sessions_empties_witness :
  fst (count_sessions store_up
         (snd (clear_all_sessions store_up
                 (snd (chat_endpoint env_flash_only (ask "What is 2+2?")
                         empty_world))))) = Ok 0.
Proof.
  destruct (clear_all_sessions_empties store_up
              (snd (chat_endpoint env_flash_only (ask "What is 2+2?") empty_world)))
    as (ok & w' & E & _ & _ & H & Hc).
  rewrite E; cbn [snd].
  cbn [store_up] in H; destruct H as [-> _].
  exact (proj1 (Hc eq_refl)).
Defined.

(** X13. [get_models_status] touches neither the table nor the
    providers.  It lists the two Gemini models exactly when a Gemini key is
    configured and [zai-large] exactly when a Z.ai key is; no model is listed
    twice, and the healthy count always equals the total. *)
Theorem models_status_counts (env : Env) (gemini_key : option string)
    (clock : nat -> string) (w : World) :
  exists status w',
    get_models_status env gemini_key clock w = (Ok status, w') /\
    sessions w' = sessions w /\ exchanges w' = exchanges w /\
    ModelsStatus.total_models status = List.length (ModelsStatus.models status) /\
    ModelsStatus.healthy_models status = ModelsStatus.total_models status /\
    ModelsStatus.total_models status =
      (if PyStr.truthy gemini_key then 2 else 0)
      + (if PyStr.truthy (Z_API_KEY env) then 1 else 0) /\
    (forall name,
       In name (map ModelInfo.model (ModelsStatus.models status)) <->
       (PyStr.truthy gemini_key = true /\
        (name = "gemini-flash" \/ name = "gemini-flash-8b")) \/
       (PyStr.truthy (Z_API_KEY env) = true /\ name = "zai-large")) /\
    NoDup (map ModelInfo.model (ModelsStatus.models status)).
Proof.
  unfold get_models_status, bind, isoformat_now, ret; cbv zeta.
  eexists _, _; split; [reflexivity|].
  cbn [sessions exchanges advance ModelsStatus.total_models ModelsStatus.models
       ModelsStatus.healthy_models].
  destruct (PyStr.truthy gemini_key), (PyStr.truthy (Z_API_KEY env));
    cbn; repeat apply conj; try reflexivity;
    try (intros name; split; intros H; intuition (subst; auto; try discriminate));
    repeat constructor; cbn; intuition discriminate.
Qed.

(** X14. [health_check] always answers [healthy]; it counts the
    configured keys, which is at most the number of models
    [get_models_status] lists and at least half of it, and it counts none
    exactly when no model is listed. *)
Theorem health_agrees_with_models_status (env : Env) (gemini_key : option string)
    (clock : nat -> string) (w1 w2 : World) :
  exists health w1' status w2',
    health_check env gemini_key clock w1 = (Ok health, w1') /\
    get_models_status env gemini_key clock w2 = (Ok status, w2') /\
    Health.status health = "healthy" /\
    Health.models_available health =
      (if PyStr.truthy gemini_key then 1 else 0)
      + (if PyStr.truthy (Z_API_KEY env) then 1 else 0) /\
    Health.models_available health <= ModelsStatus.total_models status
      <= 2 * Health.models_available health /\
    (Health.models_available health = 0 <-> ModelsStatus.models status = []).
Proof.
  unfold health_check, get_models_status, bind, isoformat_now, ret; cbv zeta.
  eexists _, _, _, _; split; [reflexivity|]; split; [reflexivity|].
  cbn [Health.status Health.models_available ModelsStatus.total_models
       ModelsStatus.models filter].
  destruct (PyStr.truthy gemini_key), (PyStr.truthy (Z_API_KEY env));
    cbn; repeat apply conj; try reflexivity; try lia;
    intros; try discriminate; try reflexivity.
Qed.




Section Sorting.

Variable A : Type.
Variable key : A -> Z.

Lemma insert_desc_perm (a : A) (l : list A) :
  Permutation (insert_desc key a l) (a :: l).
Proof.
  induction l as [|b l IH]; simpl; [reflexivity|].
  destruct (key b <=? key a)%Z; [reflexivity|].
  rewrite IH; apply perm_swap.
Qed.

Lemma sort_desc_perm (l : list A) : Permutation (sort_desc A key l) l.
Proof.
  induction l as [|a l IH]; simpl; [reflexivity|].
  unfold sort_desc in *; simpl; rewrite insert_desc_perm; now constructor.
Qed.

Lemma insert_desc_sorted (a : A) (l : list A) :
  sorted_desc key l -> sorted_desc key (insert_desc key a l).
Proof.
  unfold sorted_desc; induction 1 as [|b l Hs IH Hb]; simpl.
  - repeat constructor.
  - destruct (key b <=? key a)%Z eqn:E.
    + apply Z.leb_le in E; constructor; [now constructor|].
      constructor; [exact E|].
      rewrite Forall_forall in *; intros c Hc; specialize (Hb c Hc); lia.
    + apply Z.leb_gt in E; constructor; [exact IH|].
      rewrite Forall_forall in *; intros c Hc.
      apply (Permutation_in _ (insert_desc_perm a l)) in Hc as [<-|Hc];
        [lia | now apply Hb].
Qed.

Lemma sort_desc_sorted (l : list A) : sorted_desc key (sort_desc A key l).
Proof.
  induction l as [|a l IH]; [constructor|].
  now apply insert_desc_sorted.
Qed.

Lemma sorted_desc_firstn (n : nat) (l : list A) :
  sorted_desc key l -> sorted_desc key (firstn n l).
Proof.
  unfold sorted_desc; intros H; revert n.
  induction H as [|a l Hs IH Ha]; intros [|n]; simpl; try constructor.
  - apply IH.
  - rewrite Forall_forall in *; intros b Hb; apply Ha.
    rewrite <- (firstn_skipn n l); apply in_or_app; now left.
Qed.

Lemma sql_limit_sorted (limit : Z) (l : list A) :
  sorted_desc key l -> sorted_desc key (sql_limit limit l).
Proof.
  unfold sql_limit; destruct (limit <? 0)%Z; [auto | apply sorted_desc_firstn].
Qed.

Lemma sql_limit_in (limit : Z) (l : list A) (a : A) :
  In a (sql_limit limit l) -> In a l.
Proof.
  unfold sql_limit; destruct (limit <? 0)%Z; [auto|].
  intros H; rewrite <- (firstn_skipn (Z.to_nat limit) l).
  apply in_or_app; now left.
Qed.

Lemma sql_limit_length (limit : Z) (l : list A) :
  List.length (sql_limit limit l) =
  if (limit <? 0)%Z then List.length l
  else Nat.min (Z.to_nat limit) (List.length l).
Proof.
  unfold sql_limit; destruct (limit <? 0)%Z; [reflexivity | apply length_firstn].
Qed.

End Sorting.

Section StoredTable.

Variables rowid stamp : nat -> Z.

Lemma columns_stored_from (rows : list SessionRow.t) (start : nat) :
  map StoredSession.columns
      (map (fun item => StoredSession.make (rowid (fst item)) (stamp (fst item))
                          (snd item))
           (combine (seq start (List.length rows)) rows)) = rows.
Proof.
  revert start; induction rows as [|row rows IH]; intros start; [reflexivity|].
  simpl; now rewrite IH.
Qed.

Lemma columns_stored (rows : list SessionRow.t) :
  map StoredSession.columns (stored_table rowid stamp rows) = rows.
Proof. apply columns_stored_from. Qed.

Lemma stored_length (rows : list SessionRow.t) :
  List.length (stored_table rowid stamp rows) = List.length rows.
Proof.
  rewrite <- (columns_stored rows) at 2; now rewrite length_map.
Qed.

Lemma group_of_map {R S} (f : R -> S) (key : S -> string) (k : string)
    (rows : list R) :
  map f (group_of (fun r => key (f r)) k rows) = group_of key k (map f rows).
Proof.
  unfold group_of; induction rows as [|r rows IH]; [reflexivity|].
  simpl; destruct (String.eqb (key (f r)) k); simpl; now rewrite IH.
Qed.

Lemma stored_group (sid : string) (rows : list SessionRow.t) :
  map StoredSession.columns
      (group_of session_of sid (stored_table rowid stamp rows)) =
  group_of SessionRow.session_id sid rows.
Proof.
  unfold session_of.
  rewrite (group_of_map StoredSession.columns SessionRow.session_id).
  now rewrite columns_stored.
Qed.

Lemma stored_keys (rows : list SessionRow.t) :
  group_keys session_of (stored_table rowid stamp rows) =
  group_keys SessionRow.session_id rows.
Proof.
  unfold group_keys, session_of.
  rewrite <- (map_map StoredSession.columns SessionRow.session_id).
  now rewrite columns_stored.
Qed.

End StoredTable.

Lemma fold_max_ge (ys : list Z) (y : Z) :
  (y <= fold_right Z.max y ys)%Z /\
  forall x, In x ys -> (x <= fold_right Z.max y ys)%Z.
Proof.
  induction ys as [|z ys [IH1 IH2]]; simpl.
  - split; [lia | contradiction].
  - split; [lia|].
    intros x [<-|H]; [lia | specialize (IH2 x H); lia].
Qed.

Lemma sql_max_ge (xs : list Z) (x : Z) : In x xs -> (x <= sql_max xs)%Z.
Proof.
  destruct xs as [|y ys]; [contradiction|]; cbn [sql_max].
  destruct (fold_max_ge ys y) as [H1 H2].
  intros [<-|H]; [exact H1 | now apply H2].
Qed.

Lemma list_sum_perm (a b : list nat) : Permutation a b -> list_sum a = list_sum b.
Proof. induction 1; simpl; lia. Qed.

Lemma NoDup_firstn {A} (n : nat) (l : list A) : NoDup l -> NoDup (firstn n l).
Proof.
  intros H; rewrite <- (firstn_skipn n l) in H.
  now apply NoDup_app_remove_r in H.
Qed.

Lemma sql_limit_nodup {A} (limit : Z) (l : list A) :
  NoDup l -> NoDup (sql_limit limit l).
Proof.
  unfold sql_limit; destruct (limit <? 0)%Z; [auto | apply NoDup_firstn].
Qed.

Lemma sql_limit_map {A B} (f : A -> B) (limit : Z) (l : list A) :
  map f (sql_limit limit l) = sql_limit limit (map f l).
Proof.
  unfold sql_limit; destruct (limit <? 0)%Z;
    [reflexivity | symmetry; apply firstn_map].
Qed.

(** X20. [get_session_history] never raises and leaves the table
    alone.  On a working store every row it returns is a stored row of the
    requested session, the rows come most recent first, and their number is
    the number of rows of the session cut at the limit, a negative limit
    being no limit.  When the query fails it prints the error and returns
    the empty list. *)
Theorem session_history_is_filtered_sorted_and_bounded
    (rowid stamp : nat -> Z)
    (order_desc : forall A : Type, (A -> Z) -> list A -> list A)
    (exec : nat -> Outcome unit) (session_id : string) (limit : Z) (w : World) :
  (forall A key l, Permutation (order_desc A key l) l) ->
  (forall A key l, sorted_desc key (order_desc A key l)) ->
  exists rows w',
    get_session_history rowid stamp order_desc exec session_id limit w
    = (Ok rows, w') /\
    sessions w' = sessions w /\
    match exec (tick w) with
    | Raises msg =>
        rows = [] /\
        stdout w' = (stdout w ++ [("Error getting history: " ++ msg)%string])%list
    | Returns _ =>
        (forall s, In s rows ->
           session_of s = session_id /\
           In s (stored_table rowid stamp (sessions w)) /\
           In (StoredSession.columns s) (sessions w)) /\
        sorted_desc StoredSession.timestamp rows /\
        List.length rows =
          (let matches :=
             List.length (group_of SessionRow.session_id session_id (sessions w)) in
           if (limit <? 0)%Z then matches
           else Nat.min (Z.to_nat limit) matches)
    end.
Proof.
  intros Hperm Hsorted.
  unfold get_session_history, try_except, bind; rewrite select_run.
  destruct (exec (tick w)) as [[]|msg].
  2:{ eexists _, _; unfold print, ret; cbn; repeat apply conj; reflexivity. }
  eexists _, _; split; [reflexivity|]; split; [reflexivity|].
  cbn [sessions advance].
  set (table := stored_table rowid stamp (sessions w)).
  set (g := group_of session_of session_id table).
  repeat apply conj.
  - intros s Hin.
    apply sql_limit_in in Hin.
    apply (Permutation_in _ (Hperm _ _ g)) in Hin.
    apply filter_In in Hin as [Hin Hk]; apply String.eqb_eq in Hk.
    repeat apply conj; auto.
    rewrite <- (columns_stored rowid stamp (sessions w)).
    now apply in_map.
  - apply sql_limit_sorted, Hsorted.
  - cbv zeta; rewrite sql_limit_length, (Permutation_length (Hperm _ _ g)).
    unfold g, table.
    rewrite <- (stored_group rowid stamp), length_map; reflexivity.
Qed.

Lemma session_history_is_filtered_sorted_and_bounded_witness :
  exists rows w',
    get_session_history (fun i => Z.of_nat (S i)) (fun i => Z.of_nat i) sort_desc
      store_up "sess_0_deadbeef" 10
      (snd (chat_endpoint env_flash_only (ask "What is 2+2?") empty_world))
    = (Ok rows, w') /\
    List.length rows = 1.
Proof.
  destruct (session_history_is_filtered_sorted_and_bounded
              (fun i => Z.of_nat (S i)) (fun i => Z.of_nat i) sort_desc
              store_up "sess_0_deadbeef" 10
              (snd (chat_endpoint env_flash_only (ask "What is 2+2?") empty_world))
              sort_desc_perm sort_desc_sorted)
    as (rows & w' & E & _ & H).
  exists rows, w'; split; [exact E|].
  cbn [store_up] in H; destruct H as (_ & _ & Hlen).
  rewrite Hlen; reflexivity.
Defined.

(** X21. [get_recent_sessions] never raises and leaves the table
    alone.  On a working store it returns distinct sessions, each with the
    number of its rows and a last activity no earlier than any of its rows,
    most recently active first, cut at the limit; without a limit the
    message counts add up to the number of rows.  When the query fails it
    prints the error and returns the empty list. *)
Theorem recent_sessions_summarize_the_table
    (rowid stamp : nat -> Z)
    (order_desc : forall A : Type, (A -> Z) -> list A -> list A)
    (exec : nat -> Outcome unit) (limit : Z) (w : World) :
  (forall A key l, Permutation (order_desc A key l) l) ->
  (forall A key l, sorted_desc key (order_desc A key l)) ->
  exists rows w',
    get_recent_sessions rowid stamp order_desc exec limit w = (Ok rows, w') /\
    sessions w' = sessions w /\
    match exec (tick w) with
    | Raises msg =>
        rows = [] /\
        stdout w' =
          (stdout w ++ [("Error getting recent sessions: " ++ msg)%string])%list
    | Returns _ =>
        NoDup (map RecentSession.session_id rows) /\
        (forall r, In r rows ->
           RecentSession.message_count r =
             List.length (group_of SessionRow.session_id
                            (RecentSession.session_id r) (sessions w)) /\
           1 <= RecentSession.message_count r /\
           (forall s, In s (stored_table rowid stamp (sessions w)) ->
              session_of s = RecentSession.session_id r ->
              (StoredSession.timestamp s <= RecentSession.last_activity r)%Z)) /\
        sorted_desc RecentSession.last_activity rows /\
        List.length rows =
          (let n := List.length (group_keys SessionRow.session_id (sessions w)) in
           if (limit <? 0)%Z then n else Nat.min (Z.to_nat limit) n) /\
        ((limit < 0)%Z ->
         list_sum (map RecentSession.message_count rows) = List.length (sessions w))
    end.
Proof.
  intros Hperm Hsorted.
  unfold get_recent_sessions, try_except, bind; rewrite select_run.
  destruct (exec (tick w)) as [[]|msg].
  2:{ eexists _, _; unfold print, ret; cbn; repeat apply conj; reflexivity. }
  eexists _, _; split; [reflexivity|]; split; [reflexivity|].
  cbn [sessions advance].
  set (table := stored_table rowid stamp (sessions w)).
  set (keys := group_keys session_of table).
  set (all := map (recent_row table) keys).
  assert (Hids : map RecentSession.session_id all = keys).
  { unfold all; rewrite map_map; cbn [recent_row RecentSession.session_id].
    apply map_id. }
  repeat apply conj.
  - rewrite sql_limit_map; apply sql_limit_nodup.
    apply (Permutation_NoDup
             (Permutation_sym (Permutation_map _ (Hperm _ _ all)))).
    rewrite Hids; apply group_keys_nodup.
  - intros r Hin.
    apply sql_limit_in in Hin.
    apply (Permutation_in _ (Hperm _ _ all)) in Hin.
    apply in_map_iff in Hin as (k & <- & Hk).
    cbn [recent_row RecentSession.session_id RecentSession.message_count
         RecentSession.last_activity].
    repeat apply conj.
    + unfold table; rewrite <- (stored_group rowid stamp), length_map; reflexivity.
    + now apply group_of_nonempty.
    + intros s Hs Hsid; apply sql_max_ge, in_map.
      apply filter_In; split; [exact Hs | now apply String.eqb_eq].
  - apply sql_limit_sorted, Hsorted.
  - cbv zeta; rewrite sql_limit_length, (Permutation_length (Hperm _ _ all)).
    unfold all; rewrite length_map; unfold keys, table.
    now rewrite stored_keys.
  - intros Hneg; apply Z.ltb_lt in Hneg.
    unfold sql_limit; rewrite Hneg.
    rewrite (list_sum_perm _ _ (Permutation_map _ (Hperm _ _ all))).
    unfold all; rewrite map_map; cbn [recent_row RecentSession.message_count].
    rewrite groups_partition.
    + apply stored_length.
    + apply group_keys_nodup.
    + intros s Hs; apply group_keys_in; eauto.
Qed.

Lemma recent_sessions_summarize_the_table_witness :
  exists rows w',
    get_recent_sessions (fun i => Z.of_nat (S i)) (fun i => Z.of_nat i) sort_desc
      store_up (-1)
      (snd (chat_endpoint env_flash_only (ask "What is 2+2?") empty_world))
    = (Ok rows, w') /\
    list_sum (map RecentSession.message_count rows) = 1.
Proof.
  destruct (recent_sessions_summarize_the_table
              (fun i => Z.of_nat (S i)) (fun i => Z.of_nat i) sort_desc
              store_up (-1)
              (snd (chat_endpoint env_flash_only (ask "What is 2+2?") empty_world))
              sort_desc_perm sort_desc_sorted)
    as (rows & w' & E & _ & H).
  exists rows, w'; split; [exact E|].
  cbn [store_up] in H; destruct H as (_ & _ & _ & _ & Hsum).
  rewrite Hsum; [reflexivity | reflexivity].
Defined.

End Store.
